(** * A CRUD server for users over MongoDB: model and properties

    The development follows the two Go packages of the repository:
    - [db] (db/mongo.go): the process-wide connection singleton;
    - [api]: the HTTP handlers [createUser], [listUsers], [getUser],
      [updateUser] and [deleteUser].

    The handlers call into three libraries: the Go standard library
    ([strings], [time], [encoding/json], [encoding/hex]), the BSON codec and
    the MongoDB driver.  The parts of these libraries the handlers reach are
    modelled here as executable functions, in modules named after the Go
    packages they stand for. *)

From Stdlib Require Import ZArith Lia Ascii String List Bool.
From Stdlib Require Import Floats.SpecFloat.
From stdpp Require Import base option gmap strings list fin_maps.

#[local] Set Warnings "-register-all,-clear-no-such-hyp".
#[local] Open Scope Z_scope.

(* ===================================================================== *)
(** ** Package strings and encoding/hex *)
(* ===================================================================== *)

Module strings.

(** [stripPrefix s prefix] is [Some rest] when [s = prefix ++ rest]. *)
Fixpoint stripPrefix (s prefix : string) {struct prefix} : option string :=
  match prefix with
  | EmptyString => Some s
  | String c prefix' =>
      match s with
      | EmptyString => None
      | String d s' => if Ascii.eqb c d then stripPrefix s' prefix' else None
      end
  end.

(** strings.TrimPrefix: [s] without the leading [prefix]; [s] itself when
    it does not start with [prefix]. *)
Definition TrimPrefix (s prefix : string) : string :=
  match stripPrefix s prefix with
  | Some rest => rest
  | None => s
  end.

(** strings.HasPrefix. *)
Definition HasPrefix (s prefix : string) : bool :=
  match stripPrefix s prefix with
  | Some _ => true
  | None => false
  end.

End strings.

Module hex.

Definition code (c : ascii) : Z := Z.of_nat (nat_of_ascii c).

(** encoding/hex.fromHexChar: both letter cases are accepted. *)
Definition fromHexChar (c : ascii) : option Z :=
  let n := code c in
  if (48 <=? n) && (n <=? 57) then Some (n - 48)
  else if (97 <=? n) && (n <=? 102) then Some (n - 97 + 10)
  else if (65 <=? n) && (n <=? 70) then Some (n - 65 + 10)
  else None.

(** The character at index [d] of "0123456789abcdef". *)
Definition hextable (d : Z) : ascii :=
  ascii_of_nat (Z.to_nat (if d <? 10 then 48 + d else 87 + d)).

(** hex.Decode: two characters per byte; an odd length or a character that
    is not a hexadecimal digit is an error. *)
Fixpoint Decode (s : string) : option (list Z) :=
  match s with
  | EmptyString => Some []
  | String _ EmptyString => None
  | String a (String b rest) =>
      match fromHexChar a, fromHexChar b, Decode rest with
      | Some hi, Some lo, Some bytes => Some (Z.lor (Z.shiftl hi 4) lo :: bytes)
      | _, _, _ => None
      end
  end.

(** hex.EncodeToString: two lower-case characters per byte. *)
Fixpoint EncodeToString (bytes : list Z) : string :=
  match bytes with
  | [] => EmptyString
  | b :: rest =>
      String (hextable (Z.shiftr b 4))
        (String (hextable (Z.land b 15)) (EncodeToString rest))
  end.

End hex.

(* ===================================================================== *)
(** ** Package bson/primitive: object identifiers *)
(* ===================================================================== *)

Module primitive.

(** primitive.ObjectID is [[12]byte]; the bytes are kept as integers.
    [wf_oid] says that a list really is such an array. *)
Definition ObjectID : Type := list Z.

Definition is_byte (b : Z) : Prop := 0 <= b < 256.

Definition wf_oid (o : ObjectID) : Prop :=
  length o = 12%nat /\ Forall is_byte o.

Definition NilObjectID : ObjectID := replicate 12 0.

Definition oid_IsZero (o : ObjectID) : bool := bool_decide (o = NilObjectID).

Definition Hex (o : ObjectID) : string := hex.EncodeToString o.

(** primitive.ObjectIDFromHex: the string has 24 characters and decodes as
    hexadecimal, or the call fails with ErrInvalidHex. *)
Definition ObjectIDFromHex (s : string) : option ObjectID :=
  if negb (Nat.eqb (String.length s) 24) then None
  else hex.Decode s.

(** Big-endian bytes of [n], [k] of them. *)
Fixpoint be_bytes (k : nat) (n : Z) : list Z :=
  match k with
  | O => []
  | S k' => be_bytes k' (Z.shiftr n 8) ++ [Z.land n 255]
  end.

End primitive.

(* ===================================================================== *)
(** ** Package time *)
(* ===================================================================== *)

Module time.

(** A time.Time: seconds and nanoseconds since the Unix epoch, and the
    offset of its location in seconds east of UTC. *)
Record Time : Type := mkTime { sec : Z; nsec : Z; offset : Z }.

(** January 1, year 1, 00:00:00 UTC, the zero value of time.Time. *)
Definition unixToInternal : Z := 62135596800.

Definition zeroTime : Time := mkTime (- unixToInternal) 0 0.

Definition IsZero (t : Time) : bool :=
  (sec t =? - unixToInternal) && (nsec t =? 0).

Definition UTC (t : Time) : Time := mkTime (sec t) (nsec t) 0.

(** time.Unix, with its normalisation of the nanoseconds.  The result is
    given offset 0: every caller below applies [UTC] to it at once. *)
Definition Unix (s n : Z) : Time :=
  if (n <? 0) || (1000000000 <=? n) then
    let k := Z.quot n 1000000000 in
    let s1 := s + k in
    let n1 := n - k * 1000000000 in
    if n1 <? 0 then mkTime (s1 - 1) (n1 + 1000000000) 0
    else mkTime s1 n1 0
  else mkTime s n 0.

(** *** Calendar *)

Definition isLeap (y : Z) : bool :=
  (y mod 4 =? 0) && (negb (y mod 100 =? 0) || (y mod 400 =? 0)).

Definition daysIn (m y : Z) : Z :=
  if m =? 2 then (if isLeap y then 29 else 28)
  else if (m =? 4) || (m =? 6) || (m =? 9) || (m =? 11) then 30
  else 31.

(** Year, month and day of the day numbered [z], day 0 being 1970-01-01
    (proleptic Gregorian calendar, years counted from March inside). *)
Definition civil_of_doe (era doe : Z) : Z * Z * Z :=
  let yoe := (doe - doe / 1460 + doe / 36524 - doe / 146096) / 365 in
  let doy := doe - (365 * yoe + yoe / 4 - yoe / 100) in
  let mp := (5 * doy + 2) / 153 in
  let d := doy - (153 * mp + 2) / 5 + 1 in
  let m := if mp <? 10 then mp + 3 else mp - 9 in
  let y := yoe + era * 400 in
  (if m <=? 2 then y + 1 else y, m, d).

Definition civil_from_days (z : Z) : Z * Z * Z :=
  let z1 := z + 719468 in
  civil_of_doe (z1 / 146097) (z1 mod 146097).

(** The inverse: the number of the day [y]-[m]-[d]. *)
Definition days_from_civil (y m d : Z) : Z :=
  let y1 := if m <=? 2 then y - 1 else y in
  let era := y1 / 400 in
  let yoe := y1 - era * 400 in
  let doy := (153 * (if 2 <? m then m - 3 else m + 9) + 2) / 5 + d - 1 in
  let doe := yoe * 365 + yoe / 4 - yoe / 100 + doy in
  era * 146097 + doe - 719468.

(** Seconds since the epoch shifted by the zone offset (Time.abs). *)
Definition abs (t : Time) : Z := sec t + offset t.

Definition Date (t : Time) : Z * Z * Z := civil_from_days (abs t / 86400).

Definition Year (t : Time) : Z := fst (fst (Date t)).

(** *** Formatting *)

Definition digitChar (d : Z) : ascii := ascii_of_nat (Z.to_nat (48 + d)).

Definition digitVal (c : ascii) : option Z :=
  let n := hex.code c in
  if (48 <=? n) && (n <=? 57) then Some (n - 48) else None.

Fixpoint utoa_go (fuel : nat) (u : Z) (acc : string) : string :=
  match fuel with
  | O => acc
  | S fuel' =>
      let acc' := String (digitChar (u mod 10)) acc in
      if u / 10 =? 0 then acc' else utoa_go fuel' (u / 10) acc'
  end.

(** Decimal digits of a non-negative 64-bit integer. *)
Definition utoa (u : Z) : string := utoa_go 20 u EmptyString.

Fixpoint zeros (n : nat) (rest : string) : string :=
  match n with
  | O => rest
  | S n' => String "0" (zeros n' rest)
  end.

(** time.appendInt: [x] in decimal, zero-padded to [width], in front of
    [rest]; the two- and four-digit fields have their own fast paths. *)
Definition appendInt (x width : Z) (rest : string) : string :=
  let u := Z.abs x in
  let sign (r : string) := if x <? 0 then String "-" r else r in
  if (width =? 2) && (u <? 100) then
    sign (String (digitChar (u / 10)) (String (digitChar (u mod 10)) rest))
  else if (width =? 4) && (u <? 10000) then
    sign (String (digitChar (u / 100 / 10))
           (String (digitChar (u / 100 mod 10))
             (String (digitChar (u mod 100 / 10))
               (String (digitChar (u mod 100 mod 10)) rest))))
  else
    let ds := utoa u in
    sign (zeros (Z.to_nat width - String.length ds) (ds +:+ rest)).

(** The zone of layout element Z07:00. *)
Definition appendZone (off : Z) (rest : string) : string :=
  if off =? 0 then String "Z" rest
  else
    let zone := Z.quot off 60 in
    let z := Z.abs zone in
    String (if zone <? 0 then "-"%char else "+"%char)
      (appendInt (z / 60) 2 (String ":" (appendInt (z mod 60) 2 rest))).

(** Layout element .999999999: nothing for a whole second, else the
    nanoseconds without their trailing zeros. *)
Fixpoint trimZeros (fuel : nat) (n : Z) (width : nat) : Z * nat :=
  match fuel with
  | O => (n, width)
  | S fuel' =>
      if (n mod 10 =? 0) && (Nat.ltb 0 width)
      then trimZeros fuel' (n / 10) (Nat.pred width)
      else (n, width)
  end.

Definition appendNano (ns : Z) (rest : string) : string :=
  if ns =? 0 then rest
  else
    let '(n, w) := trimZeros 9 ns 9 in
    let ds := utoa n in
    String "." (zeros (w - String.length ds) (ds +:+ rest)).

Definition appendDateClock (t : Time) (rest : string) : string :=
  let a := abs t in
  let '(y, m, d) := civil_from_days (a / 86400) in
  let sod := a mod 86400 in
  appendInt y 4 (String "-" (appendInt m 2 (String "-" (appendInt d 2
    (String "T" (appendInt (sod / 3600) 2 (String ":"
      (appendInt (sod mod 3600 / 60) 2 (String ":"
        (appendInt (sod mod 60) 2 rest)))))))))).

(** t.Format(time.RFC3339), layout 2006-01-02T15:04:05Z07:00. *)
Definition Format_RFC3339 (t : Time) : string :=
  appendDateClock t (appendZone (offset t) EmptyString).

(** t.Format(time.RFC3339Nano), layout 2006-01-02T15:04:05.999999999Z07:00. *)
Definition Format_RFC3339Nano (t : Time) : string :=
  appendDateClock t (appendNano (nsec t) (appendZone (offset t) EmptyString)).

(** *** Parsing *)

Definition num2 (a b : ascii) : option Z :=
  match digitVal a, digitVal b with
  | Some x, Some y => Some (10 * x + y)
  | _, _ => None
  end.

Definition num4 (a b c d : ascii) : option Z :=
  match num2 a b, num2 c d with
  | Some x, Some y => Some (100 * x + y)
  | _, _ => None
  end.

(** The digits of a fractional second: the value of the first nine, scaled
    to nanoseconds, and what follows the digits. *)
Fixpoint fracDigits (s : string) (scale acc : Z) : Z * string :=
  match s with
  | EmptyString => (acc, s)
  | String c s' =>
      match digitVal c with
      | Some d => fracDigits s' (scale / 10) (acc + d * scale)
      | None => (acc, s)
      end
  end.

Definition parseFrac (s : string) : option (Z * string) :=
  match s with
  | String "." (String c s') =>
      match digitVal c with
      | Some _ => Some (fracDigits (String c s') 100000000 0)
      | None => None
      end
  | _ => Some (0, s)
  end.

Definition parseZone (s : string) : option Z :=
  match s with
  | String "Z" EmptyString => Some 0
  | String sg (String h1 (String h2 (String ":" (String m1 (String m2 EmptyString))))) =>
      match num2 h1 h2, num2 m1 m2 with
      | Some h, Some m =>
          if (h <? 24) && (m <? 60) then
            if Ascii.eqb sg "+" then Some (h * 3600 + m * 60)
            else if Ascii.eqb sg "-" then Some (- (h * 3600 + m * 60))
            else None
          else None
      | _, _ => None
      end
  | _ => None
  end.

(** time.Parse(time.RFC3339, s): a date-time of the RFC 3339 grammar with a
    four-digit year, an optional fractional second and a zone that is Z or
    a numeric offset; fields out of range are errors. *)
Definition Parse_RFC3339 (s : string) : option Time :=
  match s with
  | String y1 (String y2 (String y3 (String y4 (String c1
    (String m1 (String m2 (String c2
    (String d1 (String d2 (String cT
    (String h1 (String h2 (String c3
    (String n1 (String n2 (String c4
    (String s1 (String s2 rest)))))))))))))))))) =>
      if Ascii.eqb c1 "-" && Ascii.eqb c2 "-" && Ascii.eqb cT "T"
         && Ascii.eqb c3 ":" && Ascii.eqb c4 ":" then
        match num4 y1 y2 y3 y4, num2 m1 m2, num2 d1 d2,
              num2 h1 h2, num2 n1 n2, num2 s1 s2, parseFrac rest with
        | Some y, Some m, Some d, Some h, Some n, Some s0, Some (ns, rest') =>
            match parseZone rest' with
            | Some off =>
                if (1 <=? m) && (m <=? 12) && (1 <=? d) && (d <=? daysIn m y)
                   && (h <? 24) && (n <? 60) && (s0 <? 60) then
                  Some (mkTime (days_from_civil y m d * 86400
                                + h * 3600 + n * 60 + s0 - off) ns off)
                else None
            | None => None
            end
        | _, _, _, _, _, _, _ => None
        end
      else None
  | _ => None
  end.

(** A text is a valid RFC 3339 timestamp in UTC when it parses as one and
    its offset is zero. *)
Definition valid_RFC3339_UTC (s : string) : bool :=
  match Parse_RFC3339 s with
  | Some t => offset t =? 0
  | None => false
  end.

End time.

(* ===================================================================== *)
(** ** Go values, BSON values, JSON values *)
(* ===================================================================== *)

Module go.

(** The dynamic values an interface ([any]) holds in this program, one
    constructor per dynamic type.  [M] and [A] are the named types
    primitive.M (= bson.M) and primitive.A; [map_any] and [slice_any] are
    the unnamed types map[string]any and []any, which a type switch tells
    apart from them.  A slice is [None] when it is nil. *)
Inductive any : Type :=
| nil
| bool_ (b : bool)
| string_ (s : string)
| int (n : Z)
| int32 (n : Z)
| int64 (n : Z)
| float64 (f : spec_float)
| ObjectID (o : primitive.ObjectID)
| DateTime (ms : Z)
| Time (t : time.Time)
| M (m : gmap string any)
| A (l : list any)
| map_any (m : gmap string any)
| slice_any (l : list any)
| map_string (m : gmap string string)
| slice_map_any (l : option (list (gmap string any))).

Definition minInt64 : Z := - 2 ^ 63.
Definition maxInt64 : Z := 2 ^ 63 - 1.

(** The conversion int(v) of a float64: the fraction is discarded.  For a
    value that an int cannot hold Go leaves the result to the
    implementation; on amd64 it is the smallest int64. *)
Definition int_of_float64 (f : spec_float) : Z :=
  match f with
  | S754_zero _ => 0
  | S754_finite s m e =>
      let mag := if 0 <=? e then Z.pos m * 2 ^ e else Z.pos m / 2 ^ (- e) in
      let v := if s then - mag else mag in
      if (minInt64 <=? v) && (v <=? maxInt64) then v else minInt64
  | S754_infinity _ => minInt64
  | S754_nan => minInt64
  end.

Definition all_true (m : gmap string bool) : bool :=
  bool_decide (map_Forall (fun _ b => b = true) m).

End go.

Module bson.

(** The BSON types documents of this program are made of. *)
Inductive Value : Type :=
| Double (f : spec_float)
| String_ (s : string)
| Document (d : gmap string Value)
| Array (l : list Value)
| ObjectId (o : primitive.ObjectID)
| Boolean (b : bool)
| DateTime (ms : Z)
| Null
| Int32 (n : Z)
| Int64 (n : Z).

Definition fitsIn32Bits (n : Z) : bool :=
  (- 2 ^ 31 <=? n) && (n <=? 2 ^ 31 - 1).

(** primitive.NewDateTimeFromTime: milliseconds since the epoch. *)
Definition NewDateTimeFromTime (t : time.Time) : Z :=
  time.sec t * 1000 + time.nsec t / 1000000.

(** DateTime.Time(); the division and the remainder are Go's, which
    truncate towards zero. *)
Definition DateTime_Time (ms : Z) : time.Time :=
  time.Unix (Z.quot ms 1000) (Z.rem ms 1000 * 1000000).

(** The default encoders: an int takes 32 bits when it fits, a time.Time
    becomes a datetime, maps become documents and slices arrays. *)
Fixpoint MarshalValue (v : go.any) : Value :=
  match v with
  | go.nil => Null
  | go.bool_ b => Boolean b
  | go.string_ s => String_ s
  | go.int n => if fitsIn32Bits n then Int32 n else Int64 n
  | go.int32 n => Int32 n
  | go.int64 n => Int64 n
  | go.float64 f => Double f
  | go.ObjectID o => ObjectId o
  | go.DateTime ms => DateTime ms
  | go.Time t => DateTime (NewDateTimeFromTime t)
  | go.M m => Document (MarshalValue <$> m)
  | go.A l => Array (MarshalValue <$> l)
  | go.map_any m => Document (MarshalValue <$> m)
  | go.slice_any l => Array (MarshalValue <$> l)
  | go.map_string m => Document (String_ <$> m)
  | go.slice_map_any None => Null
  | go.slice_map_any (Some l) =>
      Array ((fun m => Document (MarshalValue <$> m)) <$> l)
  end.

(** The default decoders into an interface, below a bson.M: embedded
    documents come back as bson.M and arrays as primitive.A. *)
Fixpoint UnmarshalValue (b : Value) : go.any :=
  match b with
  | Double f => go.float64 f
  | String_ s => go.string_ s
  | Document d => go.M (UnmarshalValue <$> d)
  | Array l => go.A (UnmarshalValue <$> l)
  | ObjectId o => go.ObjectID o
  | Boolean b => go.bool_ b
  | DateTime ms => go.DateTime ms
  | Null => go.nil
  | Int32 n => go.int32 n
  | Int64 n => go.int64 n
  end.

(** Decoding a document into a [bson.M]. *)
Definition Unmarshal (d : gmap string Value) : gmap string go.any :=
  UnmarshalValue <$> d.

End bson.

Module json.

(** JSON texts, as abstract syntax.  [Int] is a number written as an
    integer literal, [Float] a number written from a float64. *)
Inductive Value : Type :=
| Null
| Bool (b : bool)
| Int (n : Z)
| Float (f : spec_float)
| Str (s : string)
| Array (l : list Value)
| Object (m : gmap string Value).

Definition finite (f : spec_float) : bool :=
  match f with
  | S754_zero _ | S754_finite _ _ _ => true
  | _ => false
  end.

(** Time.MarshalJSON fails outside the years 0 to 9999. *)
Definition time_ok (t : time.Time) : bool :=
  (0 <=? time.Year t) && (time.Year t <=? 9999).

(** The values json.Marshal accepts: every one but a NaN, an infinity or
    a time with a year that RFC 3339 cannot write, at any depth. *)
Fixpoint supported (v : go.any) : bool :=
  match v with
  | go.float64 f => finite f
  | go.DateTime ms => time_ok (time.UTC (bson.DateTime_Time ms))
  | go.Time t => time_ok t
  | go.M m => go.all_true (supported <$> m)
  | go.A l => forallb supported l
  | go.map_any m => go.all_true (supported <$> m)
  | go.slice_any l => forallb supported l
  | go.slice_map_any (Some l) =>
      forallb (fun m => go.all_true (supported <$> m)) l
  | _ => true
  end.

(** The text json.Marshal writes for a supported value.  ObjectID,
    primitive.DateTime and time.Time have MarshalJSON methods; a nil slice
    is written null. *)
Fixpoint encode (v : go.any) : Value :=
  match v with
  | go.nil => Null
  | go.bool_ b => Bool b
  | go.string_ s => Str s
  | go.int n => Int n
  | go.int32 n => Int n
  | go.int64 n => Int n
  | go.float64 f => Float f
  | go.ObjectID o => Str (primitive.Hex o)
  | go.DateTime ms =>
      Str (time.Format_RFC3339Nano (time.UTC (bson.DateTime_Time ms)))
  | go.Time t => Str (time.Format_RFC3339Nano t)
  | go.M m => Object (encode <$> m)
  | go.A l => Array (encode <$> l)
  | go.map_any m => Object (encode <$> m)
  | go.slice_any l => Array (encode <$> l)
  | go.map_string m => Object (Str <$> m)
  | go.slice_map_any None => Null
  | go.slice_map_any (Some l) => Array ((fun m => Object (encode <$> m)) <$> l)
  end.

Definition Marshal (v : go.any) : option Value :=
  if supported v then Some (encode v) else None.

End json.

(* ===================================================================== *)
(** ** The MongoDB driver and the server behind it *)
(* ===================================================================== *)

(** What a fallible call returns: a value or the message of an error. *)
Inductive result (A : Type) : Type :=
| Ok (a : A)
| Err (e : string).
Arguments Ok {A} a.
Arguments Err {A} e.

Module mongo.

(** *** Clients *)

(** What the network around the process does: which connection strings
    the driver accepts and which deployments answer a ping. *)
Record Network : Type := mkNetwork {
  uri_valid : string -> bool;
  server_up : string -> bool
}.

(** The mongo.Client objects created so far.  A [*mongo.Client] is the
    index of its entry; the entry holds the connection string and whether
    the client's topology is connected. *)
Definition ErrClientDisconnected : string := "client is disconnected".

(** mongo.Connect: a new client, connected, unless the options are
    rejected. *)
Definition Connect (net : Network) (uri : string) (cs : list (string * bool))
  : result nat * list (string * bool) :=
  if uri_valid net uri then (Ok (length cs), cs ++ [(uri, true)])
  else (Err "error parsing uri", cs).

(** Client.Ping: [None] is the nil error. *)
Definition Ping (net : Network) (c : nat) (cs : list (string * bool))
  : option string :=
  match cs !! c with
  | Some (uri, true) =>
      if server_up net uri then None else Some "server selection timeout"
  | _ => Some ErrClientDisconnected
  end.

(** Client.Disconnect: the topology goes from connected to disconnected;
    a client that is not connected answers ErrClientDisconnected. *)
Definition Disconnect (c : nat) (cs : list (string * bool))
  : option string * list (string * bool) :=
  match cs !! c with
  | Some (uri, true) => (None, <[c := (uri, false)]> cs)
  | _ => (Some ErrClientDisconnected, cs)
  end.

(** *** The users collection *)

(** The update documents this program sends: $set with its operand, which
    is [None] for a nil map (written as BSON null). *)
Inductive Update : Type :=
| set_ (operand : option (gmap string go.any)).

(** The operations a handler asks of the collection. *)
Inductive Op : Type :=
| OpInsertOne (doc : gmap string bson.Value)
| OpFind
| OpFindOne (id : primitive.ObjectID)
| OpUpdateByID (id : primitive.ObjectID) (u : Update)
| OpDeleteOne (id : primitive.ObjectID).

(** The deployment as the handlers see it: the documents of the users
    collection in their natural order, whether the server answers within
    the deadline of a call, the state of the driver's ObjectID generator,
    and the operations attempted so far. *)
Record Server : Type := mkServer {
  users : list (gmap string bson.Value);
  reachable : bool;
  oid_counter : Z;
  oplog : list Op
}.

Definition attempt (op : Op) (s : Server) : Server :=
  mkServer (users s) (reachable s) (oid_counter s) (oplog s ++ [op]).

Definition set_users (us : list (gmap string bson.Value)) (s : Server) : Server :=
  mkServer us (reachable s) (oid_counter s) (oplog s).

Definition ErrNoDocuments : string := "mongo: no documents in result".
Definition ErrDeadline : string := "context deadline exceeded".

(** primitive.NewObjectID: the next identifier of the generator. *)
Definition NewObjectID (s : Server) : primitive.ObjectID :=
  primitive.be_bytes 12 (oid_counter s).

Definition next_oid (s : Server) : Server :=
  mkServer (users s) (reachable s) (oid_counter s + 1) (oplog s).

(** The filter {"_id": id}. *)
Definition has_id (id : primitive.ObjectID) (d : gmap string bson.Value) : bool :=
  match d !! "_id" with
  | Some (bson.ObjectId o) => bool_decide (o = id)
  | _ => false
  end.

(** Collection.InsertOne.  The driver adds a generated _id to a document
    without one; the server refuses an _id already in use.  The program
    only ever inserts ObjectID identifiers: a document with another kind
    of _id is outside the model and refused. *)
Definition InsertOne (doc : gmap string bson.Value) (s : Server)
  : result go.any * Server :=
  let s := attempt (OpInsertOne doc) s in
  match doc !! "_id" with
  | Some (bson.ObjectId o) =>
      if negb (reachable s) then (Err ErrDeadline, s)
      else if existsb (has_id o) (users s) then (Err "E11000 duplicate key error", s)
      else (Ok (go.ObjectID o), set_users (users s ++ [doc]) s)
  | Some _ => (Err "unsupported _id", s)
  | None =>
      let o := NewObjectID s in
      let s := next_oid s in
      if negb (reachable s) then (Err ErrDeadline, s)
      else if existsb (has_id o) (users s) then (Err "E11000 duplicate key error", s)
      else (Ok (go.ObjectID o),
            set_users (users s ++ [<["_id" := bson.ObjectId o]> doc]) s)
  end.

(** Collection.Find with the empty filter, and the cursor read to its end:
    every document, decoded. *)
Definition Find (s : Server) : result (list (gmap string go.any)) * Server :=
  let s := attempt OpFind s in
  if negb (reachable s) then (Err ErrDeadline, s)
  else (Ok (bson.Unmarshal <$> users s), s).

(** Collection.FindOne by _id, decoded. *)
Definition FindOne (id : primitive.ObjectID) (s : Server)
  : result (gmap string go.any) * Server :=
  let s := attempt (OpFindOne id) s in
  if negb (reachable s) then (Err ErrDeadline, s)
  else match find (has_id id) (users s) with
       | Some d => (Ok (bson.Unmarshal d), s)
       | None => (Err ErrNoDocuments, s)
       end.

(** **** $set *)

(** The field names of a dotted path: "a.b" is [["a"; "b"]]. *)
Fixpoint fields (k : string) : list string :=
  match k with
  | EmptyString => [EmptyString]
  | String c k' =>
      if Ascii.eqb c "." then EmptyString :: fields k'
      else match fields k' with
           | f :: fs => String c f :: fs
           | [] => [String c EmptyString]
           end
  end.

(** A field name of an update path is not empty and does not start with
    a dollar sign (positional operators are outside the model). *)
Definition field_ok (f : string) : bool :=
  match f with
  | EmptyString => false
  | String c _ => negb (Ascii.eqb c "$")
  end.

(** The index a field name denotes in an array. *)
Fixpoint index_go (f : string) (acc : nat) : option nat :=
  match f with
  | EmptyString => Some acc
  | String c f' =>
      match time.digitVal c with
      | Some d => index_go f' (10 * acc + Z.to_nat d)%nat
      | None => None
      end
  end.

Definition index (f : string) : option nat :=
  match f with
  | EmptyString => None
  | _ => index_go f 0%nat
  end.

(** Writing position [i] of an array, padded with nulls when short. *)
Definition set_index (i : nat) (v : bson.Value) (l : list bson.Value)
  : list bson.Value :=
  if Nat.ltb i (length l) then <[i := v]> l
  else l ++ replicate (i - length l) bson.Null ++ [v].

(** The value a field gets when [new] is written at [path] below it:
    missing fields become embedded documents, a scalar on the way is an
    error. *)
Fixpoint set_path (path : list string) (new : bson.Value)
  (cur : option bson.Value) : option bson.Value :=
  match path with
  | [] => Some new
  | f :: rest =>
      match cur with
      | None =>
          match set_path rest new None with
          | Some v => Some (bson.Document {[ f := v ]})
          | None => None
          end
      | Some (bson.Document d) =>
          match set_path rest new (d !! f) with
          | Some v => Some (bson.Document (<[f := v]> d))
          | None => None
          end
      | Some (bson.Array l) =>
          match index f with
          | Some i =>
              match set_path rest new (l !! i) with
              | Some v => Some (bson.Array (set_index i v l))
              | None => None
              end
          | None => None
          end
      | Some _ => None
      end
  end.

(** One pair of the operand applied to a document.  The server refuses
    to modify _id. *)
Definition set_field (k : string) (new : bson.Value)
  (d : gmap string bson.Value) : option (gmap string bson.Value) :=
  match fields k with
  | [] => None
  | f :: rest =>
      if bool_decide (f = "_id") then None
      else match set_path rest new (d !! f) with
           | Some v => Some (<[f := v]> d)
           | None => None
           end
  end.

(** The whole operand applied to a document. *)
Definition apply_set (m : gmap string go.any) (d : gmap string bson.Value)
  : option (gmap string bson.Value) :=
  map_fold (fun k v acc =>
              match acc with
              | Some d' => set_field k (bson.MarshalValue v) d'
              | None => None
              end) (Some d) m.

(** What the server checks of the operand before it looks for a
    document: every path is made of proper field names, and no path is
    the beginning of another. *)
Definition paths (m : gmap string go.any) : list (list string) :=
  (fun kv => fields (fst kv)) <$> map_to_list m.

Definition path_ok (p : list string) : bool := forallb field_ok p.

Definition no_conflict (ps : list (list string)) : bool :=
  forallb (fun p =>
    forallb (fun q => bool_decide (p = q) || negb (bool_decide (p `prefix_of` q))) ps) ps.

Definition operand_ok (m : gmap string go.any) : bool :=
  forallb path_ok (paths m) && no_conflict (paths m).

(** Replace the first document that satisfies [p]. *)
Fixpoint update_first (p : gmap string bson.Value -> bool)
  (f : gmap string bson.Value -> gmap string bson.Value)
  (l : list (gmap string bson.Value)) : list (gmap string bson.Value) :=
  match l with
  | [] => []
  | d :: rest => if p d then f d :: rest else d :: update_first p f rest
  end.

(** Remove the first document that satisfies [p]. *)
Fixpoint delete_first (p : gmap string bson.Value -> bool)
  (l : list (gmap string bson.Value)) : list (gmap string bson.Value) :=
  match l with
  | [] => []
  | d :: rest => if p d then rest else d :: delete_first p rest
  end.

(** Collection.UpdateByID, without upsert: the operand is checked, then
    the document with this _id, if there is one, is rewritten.  An empty
    operand is accepted and changes nothing (MongoDB 5.0 and later).  The
    result is the number of documents matched. *)
Definition UpdateByID (id : primitive.ObjectID) (u : Update) (s : Server)
  : result Z * Server :=
  let s := attempt (OpUpdateByID id u) s in
  if negb (reachable s) then (Err ErrDeadline, s)
  else match u with
       | set_ None => (Err "Modifiers operate on fields but we found type null instead", s)
       | set_ (Some m) =>
           if negb (operand_ok m) then (Err "invalid update path", s)
           else match find (has_id id) (users s) with
                | None => (Ok 0, s)
                | Some d =>
                    match apply_set m d with
                    | None => (Err "cannot apply $set", s)
                    | Some d' =>
                        (Ok 1, set_users (update_first (has_id id) (fun _ => d') (users s)) s)
                    end
                end
       end.

(** Collection.DeleteOne by _id; the result is the number of documents
    deleted. *)
Definition DeleteOne (id : primitive.ObjectID) (s : Server)
  : result Z * Server :=
  let s := attempt (OpDeleteOne id) s in
  if negb (reachable s) then (Err ErrDeadline, s)
  else match find (has_id id) (users s) with
       | None => (Ok 0, s)
       | Some _ => (Ok 1, set_users (delete_first (has_id id) (users s)) s)
       end.

End mongo.

(* ===================================================================== *)
(** ** Package db (db/mongo.go) *)
(* ===================================================================== *)

Module db.

(** MongoClient holds the MongoDB client instance.  [Client] is a
    [*mongo.Client] ([None] is nil); [DB] is the database handle, made of
    its client and its name. *)
Record MongoClient : Type := mkMongoClient {
  Client : option nat;
  DB : option (nat * string)
}.

(** The state of the process that package db reads and writes: the
    package variable [clientInstance], the driver's clients, and the lines
    written with log.Println. *)
Record State : Type := mkState {
  clientInstance : option MongoClient;
  clients : list (string * bool);
  log : list string
}.

Definition init : State := mkState None [] [].

(** Connect connects to MongoDB and returns a MongoClient instance. *)
Definition Connect (net : mongo.Network) (uri dbName : string) (st : State)
  : result MongoClient * State :=
  match clientInstance st with
  | Some mc => (Ok mc, st)
  | None =>
      match mongo.Connect net uri (clients st) with
      | (Err e, cs) =>
          (Err ("failed to connect to MongoDB: " +:+ e),
           mkState None cs (log st))
      | (Ok client, cs) =>
          match mongo.Ping net client cs with
          | Some e =>
              (Err ("failed to ping MongoDB: " +:+ e), mkState None cs (log st))
          | None =>
              let mc := mkMongoClient (Some client) (Some (client, dbName)) in
              (Ok mc, mkState (Some mc) cs (log st ++ ["Connected to MongoDB!"]))
          end
      end
  end.

(** Disconnect closes the MongoDB connection; [None] is the nil error. *)
Definition Disconnect (mc : MongoClient) (st : State) : option string * State :=
  match Client mc with
  | Some client =>
      match mongo.Disconnect client (clients st) with
      | (Some e, cs) =>
          (Some ("failed to disconnect from MongoDB: " +:+ e),
           mkState (clientInstance st) cs (log st))
      | (None, cs) =>
          (None, mkState None cs (log st ++ ["Disconnected from MongoDB!"]))
      end
  | None => (None, st)
  end.

(** A run of calls to [Connect], with the result of each. *)
Fixpoint ConnectAll (net : mongo.Network) (calls : list (string * string))
  (st : State) : list (result MongoClient) * State :=
  match calls with
  | [] => ([], st)
  | (uri, dbName) :: rest =>
      let '(r, st1) := Connect net uri dbName st in
      let '(rs, st2) := ConnectAll net rest st1 in
      (r :: rs, st2)
  end.

End db.

(* ===================================================================== *)
(** ** Packages path and net/http: what ServeMux does with a path *)
(* ===================================================================== *)

Module path.

(** The elements of a path between its slashes: "/a/b" is [[""; "a"; "b"]]. *)
Fixpoint elements (p : string) : list string :=
  match p with
  | EmptyString => [EmptyString]
  | String c p' =>
      if Ascii.eqb c "/" then EmptyString :: elements p'
      else match elements p' with
           | e :: es => String c e :: es
           | [] => [String c EmptyString]
           end
  end.

(** The elements that path.Clean keeps of a rooted path, last one first in
    [kept]: empty elements and "." go, ".." goes with the element before it,
    and at the root on its own. *)
Fixpoint keep (els kept : list string) : list string :=
  match els with
  | [] => rev kept
  | e :: rest =>
      if bool_decide (e = EmptyString) || bool_decide (e = ".") then keep rest kept
      else if bool_decide (e = "..") then keep rest (tail kept)
      else keep rest (e :: kept)
  end.

Fixpoint join (els : list string) : string :=
  match els with
  | [] => EmptyString
  | e :: rest => String "/" (e +:+ join rest)
  end.

(** path.Clean on a path that starts with a slash. *)
Definition Clean (p : string) : string :=
  match keep (elements p) [] with
  | [] => "/"
  | els => join els
  end.

End path.

Module http.

Definition MethodGet : string := "GET".
Definition MethodPost : string := "POST".
Definition MethodPut : string := "PUT".
Definition MethodDelete : string := "DELETE".
Definition MethodConnect : string := "CONNECT".

Definition StatusMethodNotAllowed : Z := 405.

Fixpoint last_is_slash (p : string) : bool :=
  match p with
  | EmptyString => false
  | String c EmptyString => Ascii.eqb c "/"
  | String _ p' => last_is_slash p'
  end.

(** http.cleanPath: the canonical path for [p], without . and .. elements
    and doubled slashes, with the trailing slash of [p] kept. *)
Definition cleanPath (p : string) : string :=
  match p with
  | EmptyString => "/"
  | String c _ =>
      let p1 := if Ascii.eqb c "/" then p else String "/" p in
      let np := path.Clean p1 in
      if last_is_slash p1 && negb (bool_decide (np = "/")) then np +:+ "/" else np
  end.

(** Where a ServeMux with the two patterns "/users" and "/users/" sends a
    request: to the handler of the exact path "/users", to the handler of the
    subtree "/users/", to NotFound, or, for a path that is not canonical, to a
    redirect to the canonical one.  CONNECT requests are not canonicalized.
    The path is one that needs no percent-escaping. *)
Inductive Route : Type :=
| ToUsers
| ToUsersSubtree
| ToNotFound
| ToRedirect (location : string).

Definition match_ (p : string) : Route :=
  if bool_decide (p = "/users") then ToUsers
  else if strings.HasPrefix p "/users/" then ToUsersSubtree
  else ToNotFound.

Definition route (method p : string) : Route :=
  if bool_decide (method = MethodConnect) then match_ p
  else if bool_decide (cleanPath p = p) then match_ p
  else ToRedirect (cleanPath p).

End http.

(* ===================================================================== *)
(** ** Package api *)
(* ===================================================================== *)

Module api.

(** User represents a user stored in MongoDB. *)
Record User : Type := mkUser {
  ID : primitive.ObjectID;
  Name : string;
  Email : string;
  Age : Z;
  CreatedAt : time.Time
}.

(** The members a create request may carry, each present or not, and the
    User that json.Decode fills from them: an absent member leaves the
    zero value of its field. *)
Record CreatePayload : Type := mkPayload {
  p_name : option string;
  p_email : option string;
  p_age : option Z;
  p_created_at : option time.Time
}.

Definition decodePayload (p : CreatePayload) : User :=
  mkUser primitive.NilObjectID
    (default EmptyString (p_name p))
    (default EmptyString (p_email p))
    (default 0 (p_age p))
    (default time.zeroTime (p_created_at p)).

(** The document the BSON codec writes for a User; every field is tagged
    omitempty, so a field holding its zero value is left out. *)
Definition unless (omit : bool) (k : string) (v : bson.Value)
  (d : gmap string bson.Value) : gmap string bson.Value :=
  if omit then d else <[k := v]> d.

Definition MarshalUser (u : User) : gmap string bson.Value :=
  unless (primitive.oid_IsZero (ID u)) "_id" (bson.ObjectId (ID u))
    (unless (bool_decide (Name u = EmptyString)) "name" (bson.String_ (Name u))
      (unless (bool_decide (Email u = EmptyString)) "email" (bson.String_ (Email u))
        (unless (Age u =? 0) "age" (bson.MarshalValue (go.int (Age u)))
          (unless (time.IsZero (CreatedAt u)) "created_at"
            (bson.MarshalValue (go.Time (CreatedAt u))) ∅)))).

(** What a handler writes: the status and the body. *)
Inductive Body : Type :=
| Text (s : string)
| JSON (v : json.Value)
| NoBody.

Record Response : Type := mkResponse { status : Z; body : Body }.

Definition StatusOK : Z := 200.
Definition StatusCreated : Z := 201.
Definition StatusBadRequest : Z := 400.
Definition StatusNotFound : Z := 404.
Definition StatusInternalServerError : Z := 500.

(** http.Error: the message and a newline, as plain text. *)
Definition http_Error (msg : string) (code : Z) : Response :=
  mkResponse code (Text (msg +:+ String "010" EmptyString)).

(** Helper: write JSON.  The error of the encoder is dropped: the status
    is written and the body stays empty. *)
Definition writeJSON (st : Z) (v : go.any) : Response :=
  mkResponse st (match json.Marshal v with
                 | Some j => JSON j
                 | None => NoBody
                 end).

(** createUser - POST /users.  [now] is what time.Now() returns; [body] is
    what decoding the request body into a User gives. *)
Definition createUser (now : time.Time) (s : mongo.Server) (body : result User)
  : Response * mongo.Server :=
  match body with
  | Err _ => (http_Error "invalid json body" StatusBadRequest, s)
  | Ok in0 =>
      let in1 :=
        if time.IsZero (CreatedAt in0)
        then mkUser (ID in0) (Name in0) (Email in0) (Age in0) (time.UTC now)
        else in0 in
      match mongo.InsertOne (MarshalUser in1) s with
      | (Err e, s') =>
          (http_Error ("insert error: " +:+ e) StatusInternalServerError, s')
      | (Ok insertedID, s') =>
          let id := match insertedID with
                    | go.ObjectID oid => primitive.Hex oid
                    | _ => EmptyString
                    end in
          (writeJSON StatusCreated (go.map_string {[ "id" := id ]}), s')
      end
  end.

(** The statements that copy name, email, age and created_at from the
    decoded document [raw] into the map under construction are the same, word
    for word, in listUsers and in getUser; each is one function here, applied
    to the map built so far. *)

(** if v, ok := raw["name"].(string); ok { m["name"] = v } *)
Definition copy_name (raw m : gmap string go.any) : gmap string go.any :=
  match raw !! "name" with
  | Some (go.string_ v) => <["name" := go.string_ v]> m
  | _ => m
  end.

(** if v, ok := raw["email"].(string); ok { m["email"] = v } *)
Definition copy_email (raw m : gmap string go.any) : gmap string go.any :=
  match raw !! "email" with
  | Some (go.string_ v) => <["email" := go.string_ v]> m
  | _ => m
  end.

(** The chain of type assertions on raw["age"]: int32, then int, then
    float64, each converted with int(v). *)
Definition copy_age (raw m : gmap string go.any) : gmap string go.any :=
  match raw !! "age" with
  | Some (go.int32 v) => <["age" := go.int v]> m
  | Some (go.int v) => <["age" := go.int v]> m
  | Some (go.float64 v) => <["age" := go.int (go.int_of_float64 v)]> m
  | _ => m
  end.

(** normalize created_at to RFC3339 string when possible: the type switch on
    raw["created_at"]. *)
Definition copy_created_at (raw m : gmap string go.any) : gmap string go.any :=
  match raw !! "created_at" with
  | Some cat =>
      match cat with
      | go.DateTime t =>
          <["created_at" :=
              go.string_ (time.Format_RFC3339 (time.UTC (bson.DateTime_Time t)))]> m
      | go.Time t =>
          <["created_at" := go.string_ (time.Format_RFC3339 (time.UTC t))]> m
      | go.map_any t =>
          (* May come from older inserted doc like {"$date":"..."} *)
          match t !! "$date" with
          | Some (go.string_ s) =>
              match time.Parse_RFC3339 s with
              | Some parsed =>
                  <["created_at" :=
                      go.string_ (time.Format_RFC3339 (time.UTC parsed))]> m
              | None => <["created_at" := go.string_ s]> m
              end
          | _ => <["created_at" := go.map_any t]> m
          end
      | t => <["created_at" := t]> m
      end
  | None => m
  end.

(** The map [m] that the loop of listUsers builds from one document. *)
Definition listUsers_item (raw : gmap string go.any) : gmap string go.any :=
  let m : gmap string go.any := ∅ in
  let m := match raw !! "_id" with
           | Some (go.ObjectID idv) => <["id" := go.string_ (primitive.Hex idv)]> m
           | _ => <["id" := go.string_ EmptyString]> m
           end in
  copy_created_at raw (copy_age raw (copy_email raw (copy_name raw m))).

(** Go's append on a slice that may be nil. *)
Definition append {A : Type} (out : option (list A)) (x : A) : option (list A) :=
  Some (default [] out ++ [x]).

(** listUsers - GET /users.  Decoding a document into a bson.M does not
    fail, so the decode error of the loop has no counterpart here. *)
Definition listUsers (s : mongo.Server) : Response * mongo.Server :=
  match mongo.Find s with
  | (Err e, s') =>
      (http_Error ("find error: " +:+ e) StatusInternalServerError, s')
  | (Ok raws, s') =>
      let out := foldl (fun out raw => append out (listUsers_item raw)) None raws in
      (writeJSON StatusOK (go.slice_map_any out), s')
  end.

(** The map [resp] that getUser builds from the document found. *)
Definition getUser_resp (raw : gmap string go.any) : gmap string go.any :=
  let resp : gmap string go.any := {[ "id" := go.string_ EmptyString ]} in
  let resp := match raw !! "_id" with
              | Some (go.ObjectID idv) => <["id" := go.string_ (primitive.Hex idv)]> resp
              | _ => resp
              end in
  copy_created_at raw (copy_age raw (copy_email raw (copy_name raw resp))).

(** getUser - GET /users/{id}. *)
Definition getUser (s : mongo.Server) (path : string) : Response * mongo.Server :=
  let idStr := strings.TrimPrefix path "/users/" in
  match primitive.ObjectIDFromHex idStr with
  | None => (http_Error "invalid id" StatusBadRequest, s)
  | Some oid =>
      match mongo.FindOne oid s with
      | (Err e, s') =>
          if bool_decide (e = mongo.ErrNoDocuments)
          then (http_Error "not found" StatusNotFound, s')
          else (http_Error ("find error: " +:+ e) StatusInternalServerError, s')
      | (Ok raw, s') =>
          (writeJSON StatusOK (go.map_any (getUser_resp raw)), s')
      end
  end.

(** updateUser - PUT /users/{id}.  [body] is what decoding the request
    body into a map[string]any gives: an error, a nil map ([None], from the
    text null) or a map. *)
Definition updateUser (s : mongo.Server) (path : string)
  (body : result (option (gmap string go.any))) : Response * mongo.Server :=
  let idStr := strings.TrimPrefix path "/users/" in
  match primitive.ObjectIDFromHex idStr with
  | None => (http_Error "invalid id" StatusBadRequest, s)
  | Some oid =>
      match body with
      | Err _ => (http_Error "invalid json body" StatusBadRequest, s)
      | Ok body0 =>
          (* Remove id if present *)
          let body1 := delete "id" <$> body0 in
          match mongo.UpdateByID oid (mongo.set_ body1) s with
          | (Err e, s') =>
              (http_Error ("update error: " +:+ e) StatusInternalServerError, s')
          | (Ok _, s') =>
              (writeJSON StatusOK (go.map_string {[ "id" := primitive.Hex oid ]}), s')
          end
      end
  end.

(** deleteUser - DELETE /users/{id}. *)
Definition deleteUser (s : mongo.Server) (path : string) : Response * mongo.Server :=
  let idStr := strings.TrimPrefix path "/users/" in
  match primitive.ObjectIDFromHex idStr with
  | None => (http_Error "invalid id" StatusBadRequest, s)
  | Some oid =>
      match mongo.DeleteOne oid s with
      | (Err e, s') =>
          (http_Error ("delete error: " +:+ e) StatusInternalServerError, s')
      | (Ok _, s') =>
          (writeJSON StatusOK (go.map_string {[ "id" := primitive.Hex oid ]}), s')
      end
  end.

(** A request as the router and the handlers read it: the method, the
    request target as the client sent it, the path, and what decoding the body
    gives, as a User for createUser and as a map[string]any for updateUser. *)
Record Request : Type := mkRequest {
  Method : string;
  RequestURI : string;
  Path : string;
  UserBody : result User;
  MapBody : result (option (gmap string go.any))
}.

(** The handler registered for "/users". *)
Definition handleUsers (now : time.Time) (s : mongo.Server) (r : Request)
  : Response * mongo.Server :=
  if bool_decide (Method r = http.MethodGet) then listUsers s
  else if bool_decide (Method r = http.MethodPost) then createUser now s (UserBody r)
  else (http_Error "method not allowed" http.StatusMethodNotAllowed, s).

(** The handler registered for "/users/": routes with ID, /users/{id}. *)
Definition handleUsersID (s : mongo.Server) (r : Request)
  : Response * mongo.Server :=
  if bool_decide (Method r = http.MethodGet) then getUser s (Path r)
  else if bool_decide (Method r = http.MethodPut) then updateUser s (Path r) (MapBody r)
  else if bool_decide (Method r = http.MethodDelete) then deleteUser s (Path r)
  else (http_Error "method not allowed" http.StatusMethodNotAllowed, s).

(** What the handler that NewRouter returns does with a request: it answers,
    or it redirects to the canonical path. *)
Inductive Served : Type :=
| Answer (resp : Response)
| MovedPermanently (location : string).

(** NewRouter returns an http.Handler with user CRUD routes registered.
    The ServeMux answers the request target "*" with 400 and no body before
    it looks for a handler. *)
Definition NewRouter (now : time.Time) (s : mongo.Server) (r : Request)
  : Served * mongo.Server :=
  if bool_decide (RequestURI r = "*") then (Answer (mkResponse StatusBadRequest NoBody), s)
  else
    match http.route (Method r) (Path r) with
    | http.ToUsers => let '(resp, s') := handleUsers now s r in (Answer resp, s')
    | http.ToUsersSubtree => let '(resp, s') := handleUsersID s r in (Answer resp, s')
    | http.ToNotFound => (Answer (http_Error "404 page not found" StatusNotFound), s)
    | http.ToRedirect loc => (MovedPermanently loc, s)
    end.

End api.

(* ===================================================================== *)
(** ** Package main: the startup helpers *)
(* ===================================================================== *)

Module main.

(** What a helper prints on standard output, without the formatting. *)
Inductive Printed : Type :=
| PrintedPinged
| PrintedInserted (id : go.any)
| PrintedNoDocument
| PrintedFound (doc : gmap string go.any).

(** How a call ends: it returns its error ([None] is nil), or it panics. *)
Inductive Outcome : Type :=
| Returned (err : option string)
| Panicked.

(** pingDatabase tests the database connection.  Calling Ping through a nil
    [*mongo.Client] dereferences it. *)
Definition pingDatabase (net : mongo.Network) (client : db.MongoClient)
  (st : db.State) : Outcome * list Printed :=
  match db.Client client with
  | None => (Panicked, [])
  | Some c =>
      match mongo.Ping net c (db.clients st) with
      | Some e => (Returned (Some ("failed to ping MongoDB: " +:+ e)), [])
      | None => (Returned None, [PrintedPinged])
      end
  end.

(** time.Date(2023, 1, 1, 0, 0, 0, 0, time.UTC). *)
Definition sampleTime : time.Time :=
  time.mkTime (time.days_from_civil 2023 1 1 * 86400) 0 0.

(** Sample document to insert. *)
Definition sampleDoc : gmap string go.any :=
  <["name" := go.string_ "John Doe"]>
    (<["email" := go.string_ "john.doe@example.com"]>
      (<["age" := go.int 30]>
        (<["created_at" := go.Time sampleTime]> ∅))).

(** createSampleData creates a sample collection and inserts a document.
    The filter of the FindOne is the InsertedID of the insert, which is an
    ObjectID whenever the insert succeeds. *)
Definition createSampleData (s : mongo.Server)
  : option string * list Printed * mongo.Server :=
  match mongo.InsertOne (bson.MarshalValue <$> sampleDoc) s with
  | (Err e, s1) => (Some ("failed to insert document: " +:+ e), [], s1)
  | (Ok insertedID, s1) =>
      let found :=
        match insertedID with
        | go.ObjectID o => mongo.FindOne o s1
        | _ => (Err mongo.ErrNoDocuments, s1)
        end in
      match found with
      | (Err e, s2) =>
          if bool_decide (e = mongo.ErrNoDocuments)
          then (None, [PrintedInserted insertedID; PrintedNoDocument], s2)
          else (Some ("error finding document: " +:+ e),
                [PrintedInserted insertedID], s2)
      | (Ok foundDoc, s2) =>
          (None, [PrintedInserted insertedID; PrintedFound foundDoc], s2)
      end
  end.

End main.

(* ===================================================================== *)
(** ** Notions the properties are stated with *)
(* ===================================================================== *)

Module spec.

Definition isHexChar (c : ascii) : bool :=
  let n := hex.code c in
  ((48 <=? n) && (n <=? 57)) || ((97 <=? n) && (n <=? 102))
  || ((65 <=? n) && (n <=? 70)).

(** A valid hex identifier: 24 hexadecimal digits. *)
Definition is_hex_id (s : string) : bool :=
  Nat.eqb (String.length s) 24 && forallb isHexChar (list_ascii_of_string s).

(** The response 200 with body {id}. *)
Definition ok_id (oid : primitive.ObjectID) : api.Response :=
  api.mkResponse 200
    (api.JSON (json.Object {[ "id" := json.Str (primitive.Hex oid) ]})).

(** No stored document has this identifier. *)
Definition absent (oid : primitive.ObjectID) (s : mongo.Server) : Prop :=
  Forall (fun d => mongo.has_id oid d = false) (mongo.users s).

(** Some stored document has this identifier. *)
Definition present (oid : primitive.ObjectID) (s : mongo.Server) : Prop :=
  Exists (fun d => mongo.has_id oid d = true) (mongo.users s).

(** A network on which every connection string is accepted and every
    deployment answers, and one on which nothing does. *)
Definition net_up : mongo.Network := mongo.mkNetwork (fun _ => true) (fun _ => true).
Definition net_down : mongo.Network := mongo.mkNetwork (fun _ => false) (fun _ => false).

(** The body of an update names the stored field [f] when one of its keys
    is [f] or a dotted path that starts with [f]. *)
Definition names (body : option (gmap string go.any)) (f : string) : Prop :=
  exists m k, body = Some m /\ is_Some (m !! k) /\ head (mongo.fields k) = Some f.

(** A server that answers, with one stored user. *)
Definition ann_id : primitive.ObjectID := [101; 240; 161; 178; 195; 212; 229; 246; 1; 35; 69; 103].

Definition ann_doc : gmap string bson.Value :=
  <["_id" := bson.ObjectId ann_id]>
    (<["name" := bson.String_ "Ann"]>
      (<["email" := bson.String_ "a@x.com"]>
        (<["age" := bson.Int32 31]>
          (<["created_at" := bson.DateTime 1700000000123]> ∅)))).

Definition srv_ann : mongo.Server := mongo.mkServer [ann_doc] true 1 [].

Definition ann_path : string := "/users/65f0a1b2c3d4e5f601234567".

(** The value of created_at holds the time [t] in one of the three
    encodings the handlers convert: a native BSON datetime, an in-memory
    time value, or a nested object with a textual date under $date. *)
Inductive holds_time : go.any -> time.Time -> Prop :=
| native_datetime (ms : Z) :
    holds_time (go.DateTime ms) (bson.DateTime_Time ms)
| time_value (t : time.Time) :
    holds_time (go.Time t) t
| legacy_object (m : gmap string go.any) (s : string) (t : time.Time) :
    m !! "$date" = Some (go.string_ s) ->
    time.Parse_RFC3339 s = Some t ->
    holds_time (go.map_any m) t.

(** The values of created_at that no case of the type switch converts. *)
Definition unconverted (cat : go.any) : bool :=
  match cat with
  | go.DateTime _ | go.Time _ | go.map_any _ => false
  | _ => true
  end.

(** [f] holds of the [n] integers from [lo] on. *)
Fixpoint range_all (f : Z -> bool) (lo : Z) (n : positive) : bool :=
  match n with
  | xH => f lo
  | xO n' => range_all f lo n' && range_all f (lo + Z.pos n') n'
  | xI n' => f lo && range_all f (lo + 1) n' && range_all f (lo + 1 + Z.pos n') n'
  end.

(** The calendar date of day [doe] of a 400-year era is a real date. *)
Definition civil_ok (doe : Z) : bool :=
  let '(y, m, d) := time.civil_of_doe 0 doe in
  (1 <=? m) && (m <=? 12) && (1 <=? d) && (d <=? time.daysIn m y).

(** A server that answers, with no user, and the instant at which the
    requests of the examples arrive (2023-11-14T23:13:20.123456789+01:00). *)
Definition srv_empty : mongo.Server := mongo.mkServer [] true 1 [].

Definition now0 : time.Time := time.mkTime 1700000000 123456789 3600.

Definition first_path : string := "/users/000000000000000000000001".

(** **** Create, then get *)

(** [m] with [k] set to the value of [o], when there is one. *)
Definition put {V : Type} (k : string) (o : option V) (m : gmap string V)
  : gmap string V :=
  match o with
  | Some v => <[k := v]> m
  | None => m
  end.

(** What the stored document keeps of a member of the payload: nothing when
    the member is absent or holds the zero value of its type. *)
Definition kept_text (o : option string) : option string :=
  match o with
  | Some s => if bool_decide (s = EmptyString) then None else Some s
  | None => None
  end.

Definition kept_int (o : option Z) : option Z :=
  match o with
  | Some n => if n =? 0 then None else Some n
  | None => None
  end.

(** The creation time stored: that of the payload, or the present time in
    UTC when the payload has none (or has the zero time). *)
Definition effective_created_at (now : time.Time) (p : api.CreatePayload) : time.Time :=
  let t0 := default time.zeroTime (api.p_created_at p) in
  if time.IsZero t0 then time.UTC now else t0.

(** The nanoseconds of a time.Time are below a second. *)
Definition wf_time (t : time.Time) : Prop := 0 <= time.nsec t < 1000000000.

(** The object that get answers with after a create. *)
Definition expected_user (oid : primitive.ObjectID) (now : time.Time)
  (p : api.CreatePayload) : gmap string json.Value :=
  <["created_at" :=
      json.Str (time.Format_RFC3339 (time.UTC (effective_created_at now p)))]>
    (put "age" (json.Int <$> kept_int (api.p_age p))
      (put "email" (json.Str <$> kept_text (api.p_email p))
        (put "name" (json.Str <$> kept_text (api.p_name p))
          {[ "id" := json.Str (primitive.Hex oid) ]}))).

(** The answer carries the member [k] exactly when the payload does, with
    the same value. *)
Definition text_echoed (m : gmap string json.Value) (k : string) (o : option string) : bool :=
  match m !! k, o with
  | Some (json.Str a), Some b => String.eqb a b
  | None, None => true
  | _, _ => false
  end.

Definition int_echoed (m : gmap string json.Value) (k : string) (o : option Z) : bool :=
  match m !! k, o with
  | Some (json.Int a), Some b => a =? b
  | None, None => true
  | _, _ => false
  end.

(** The answer carries the time [t], written in UTC to the second. *)
Definition time_echoed (m : gmap string json.Value) (k : string) (t : time.Time) : bool :=
  match m !! k with
  | Some (json.Str a) => String.eqb a (time.Format_RFC3339 (time.UTC t))
  | _ => false
  end.

(** The answer of get has the same field values as the payload of the
    create, created_at being the present time when the payload has none. *)
Definition same_fields (p : api.CreatePayload) (now : time.Time) (r : api.Response) : bool :=
  match api.body r with
  | api.JSON (json.Object m) =>
      text_echoed m "name" (api.p_name p)
      && text_echoed m "email" (api.p_email p)
      && int_echoed m "age" (api.p_age p)
      && time_echoed m "created_at" (default now (api.p_created_at p))
  | _ => false
  end.

(** Every value of the map is one that json.Marshal accepts. *)
Definition Supported (m : gmap string go.any) : Prop :=
  map_Forall (fun _ v => json.supported v = true) m.

(** The payload {"name":"Ann","email":"a@x.com","age":31}. *)
Definition ann_payload : api.CreatePayload :=
  api.mkPayload (Some "Ann") (Some "a@x.com") (Some 31) None.

(** A byte is made of its two hexadecimal digits. *)
Definition byte_splits (b : Z) : bool :=
  (0 <=? Z.shiftr b 4) && (Z.shiftr b 4 <? 16)
  && (0 <=? Z.land b 15) && (Z.land b 15 <? 16)
  && (Z.lor (Z.shiftl (Z.shiftr b 4) 4) (Z.land b 15) =? b).

End spec.

(* ===================================================================== *)
(** ** Notions of the further properties *)
(* ===================================================================== *)

Module inv.

(** The ObjectID of a stored document, when its _id is one. *)
Definition oid_of (d : gmap string bson.Value) : option primitive.ObjectID :=
  match d !! "_id" with
  | Some (bson.ObjectId o) => Some o
  | _ => None
  end.

(** No two stored documents have the same ObjectID. *)
Definition unique_ids (s : mongo.Server) : Prop :=
  NoDup (omap oid_of (mongo.users s)).

(** The instance cached in [clientInstance], when there is one, has a
    client whose connection is open. *)
Definition singleton_open (st : db.State) : Prop :=
  forall mc, db.clientInstance st = Some mc ->
    exists c uri, db.Client mc = Some c /\ db.clients st !! c = Some (uri, true).

(** The connection of [mc] is open in [st]. *)
Definition is_open (mc : db.MongoClient) (st : db.State) : Prop :=
  exists c uri, db.Client mc = Some c /\ db.clients st !! c = Some (uri, true).

Fixpoint has_dot (k : string) : bool :=
  match k with
  | EmptyString => false
  | String c k' => Ascii.eqb c "." || has_dot k'
  end.

(** A key of an update that is the name of a top-level field other than
    _id: not empty, without a dot, not starting with a dollar sign. *)
Definition plain (k : string) : bool :=
  negb (has_dot k) && mongo.field_ok k && negb (bool_decide (k = "_id")).

(** The keys a normalized user may have. *)
Definition user_keys : gset string :=
  {[ "id"; "name"; "email"; "age"; "created_at" ]}.

(** A hexadecimal digit in lower case, and a text with its letters A to F
    in lower case. *)
Definition lower_hex (c : ascii) : ascii :=
  let n := hex.code c in
  if (65 <=? n) && (n <=? 70) then ascii_of_nat (Z.to_nat (n + 32)) else c.

Fixpoint lower (s : string) : string :=
  match s with
  | EmptyString => EmptyString
  | String c s' => String (lower_hex c) (lower s')
  end.

(** The byte made of two hexadecimal digits gives them back. *)
Definition nibbles_join (hi : Z) : bool :=
  spec.range_all
    (fun lo => (Z.shiftr (Z.lor (Z.shiftl hi 4) lo) 4 =? hi)
               && (Z.land (Z.lor (Z.shiftl hi 4) lo) 15 =? lo)) 0 16.

End inv.

(* ===================================================================== *)
(** ** Properties of the libraries' models *)
(* ===================================================================== *)

Section StringsHex.

Lemma stripPrefix_app (p s : string) : strings.stripPrefix (p +:+ s) p = Some s.
Proof.
  induction p as [|c p IH]; simpl; [reflexivity|].
  now rewrite Ascii.eqb_refl.
Qed.

Lemma TrimPrefix_app (p s : string) : strings.TrimPrefix (p +:+ s) p = s.
Proof. unfold strings.TrimPrefix. now rewrite stripPrefix_app. Qed.

Lemma nibble_cases (d : Z) :
  0 <= d < 16 ->
  d = 0 \/ d = 1 \/ d = 2 \/ d = 3 \/ d = 4 \/ d = 5 \/ d = 6 \/ d = 7 \/
  d = 8 \/ d = 9 \/ d = 10 \/ d = 11 \/ d = 12 \/ d = 13 \/ d = 14 \/ d = 15.
Proof. lia. Qed.

Lemma fromHexChar_hextable (d : Z) :
  0 <= d < 16 -> hex.fromHexChar (hex.hextable d) = Some d.
Proof.
  intros H. destruct (nibble_cases d H) as
    [->|[->|[->|[->|[->|[->|[->|[->|[->|[->|[->|[->|[->|[->|[->| ->]]]]]]]]]]]]]]];
    reflexivity.
Qed.

Lemma byte_splits_all : forallb spec.byte_splits (seqZ 0 256) = true.
Proof. vm_compute. reflexivity. Qed.

Lemma byte_split (b : Z) :
  primitive.is_byte b ->
  0 <= Z.shiftr b 4 < 16 /\ 0 <= Z.land b 15 < 16
  /\ Z.lor (Z.shiftl (Z.shiftr b 4) 4) (Z.land b 15) = b.
Proof.
  intros Hb. pose proof byte_splits_all as Hall.
  rewrite forallb_forall in Hall.
  assert (Hin : In b (seqZ 0 256)).
  { apply list_elem_of_In, elem_of_seqZ. unfold primitive.is_byte in Hb. lia. }
  specialize (Hall b Hin). unfold spec.byte_splits in Hall.
  repeat (apply andb_prop in Hall; destruct Hall as [Hall ?]). lia.
Qed.

Lemma Decode_EncodeToString (bs : list Z) :
  Forall primitive.is_byte bs -> hex.Decode (hex.EncodeToString bs) = Some bs.
Proof.
  induction 1 as [|b bs Hb _ IH]; simpl; [reflexivity|].
  destruct (byte_split b Hb) as (Hhi & Hlo & Heq).
  rewrite !fromHexChar_hextable by assumption.
  now rewrite IH, Heq.
Qed.

Lemma length_EncodeToString (bs : list Z) :
  String.length (hex.EncodeToString bs) = (2 * length bs)%nat.
Proof. induction bs as [|b bs IH]; simpl; [reflexivity|]. rewrite IH. lia. Qed.

(** An identifier read back from its hexadecimal form is itself. *)
Lemma ObjectIDFromHex_Hex (o : primitive.ObjectID) :
  primitive.wf_oid o -> primitive.ObjectIDFromHex (primitive.Hex o) = Some o.
Proof.
  intros [Hlen Hbytes]. unfold primitive.ObjectIDFromHex, primitive.Hex.
  rewrite length_EncodeToString, Hlen. simpl.
  now apply Decode_EncodeToString.
Qed.

Lemma fromHexChar_isHexChar (c : ascii) :
  hex.fromHexChar c = None <-> spec.isHexChar c = false.
Proof.
  unfold hex.fromHexChar, spec.isHexChar.
  destruct ((48 <=? hex.code c) && (hex.code c <=? 57)),
           ((97 <=? hex.code c) && (hex.code c <=? 102)),
           ((65 <=? hex.code c) && (hex.code c <=? 70)); simpl; split; congruence.
Qed.

(** hex.Decode fails exactly on an odd length or a foreign character. *)
Lemma Decode_None (s : string) :
  hex.Decode s = None <->
  Nat.odd (String.length s) = true
  \/ forallb spec.isHexChar (list_ascii_of_string s) = false.
Proof.
  revert s. fix IH 1. intros [|a [|b rest]].
  - simpl. split; [discriminate|]. intros [H|H]; discriminate.
  - simpl. split; [now left|reflexivity].
  - specialize (IH rest).
    change (hex.Decode (String a (String b rest))) with
      (match hex.fromHexChar a, hex.fromHexChar b, hex.Decode rest with
       | Some hi, Some lo, Some bytes => Some (Z.lor (Z.shiftl hi 4) lo :: bytes)
       | _, _, _ => None
       end).
    change (Nat.odd (String.length (String a (String b rest))))
      with (Nat.odd (String.length rest)).
    change (forallb spec.isHexChar (list_ascii_of_string (String a (String b rest))))
      with (spec.isHexChar a && (spec.isHexChar b
            && forallb spec.isHexChar (list_ascii_of_string rest))).
    pose proof (fromHexChar_isHexChar a) as Ha.
    pose proof (fromHexChar_isHexChar b) as Hb.
    destruct (hex.fromHexChar a) as [hi|], (hex.fromHexChar b) as [lo|],
      (spec.isHexChar a), (spec.isHexChar b); simpl;
      try (destruct Ha as [Ha1 Ha2]; destruct Hb as [Hb1 Hb2];
           try (specialize (Ha2 eq_refl)); try (specialize (Hb2 eq_refl));
           try (specialize (Ha1 eq_refl)); try (specialize (Hb1 eq_refl));
           discriminate);
      try (split; [now right | reflexivity]).
    destruct (hex.Decode rest); split; intros H;
      try discriminate; try (apply IH; assumption); try (apply IH in H; assumption).
    destruct IH as [_ IH2]. specialize (IH2 H). discriminate.
Qed.

(** ObjectIDFromHex fails exactly when its argument is not 24 hexadecimal
    digits. *)
Lemma ObjectIDFromHex_None (s : string) :
  primitive.ObjectIDFromHex s = None <-> spec.is_hex_id s = false.
Proof.
  unfold primitive.ObjectIDFromHex, spec.is_hex_id.
  destruct (Nat.eqb (String.length s) 24) eqn:Hlen; simpl; [|tauto].
  rewrite Decode_None. apply Nat.eqb_eq in Hlen. rewrite Hlen.
  split; [intros [H|H]; [discriminate|assumption] | now right].
Qed.

End StringsHex.

(* ===================================================================== *)
(** ** Package db: the connection singleton *)
(* ===================================================================== *)

Section Connection.

Lemma Connect_cached net uri dbName st mc :
  db.clientInstance st = Some mc -> db.Connect net uri dbName st = (Ok mc, st).
Proof. intros H. unfold db.Connect. now rewrite H. Qed.

Lemma Connect_Ok_caches net uri dbName st mc st' :
  db.Connect net uri dbName st = (Ok mc, st') -> db.clientInstance st' = Some mc.
Proof.
  unfold db.Connect. destruct (db.clientInstance st) as [mc0|] eqn:E.
  - intros [= <- <-]. exact E.
  - destruct (mongo.Connect net uri (db.clients st)) as [[c|e] cs].
    + destruct (mongo.Ping net c cs); intros [= <- <-]. reflexivity.
    + discriminate.
Qed.

Lemma ConnectAll_cached net calls st mc :
  db.clientInstance st = Some mc ->
  db.ConnectAll net calls st = (replicate (length calls) (Ok mc), st).
Proof.
  intros H. induction calls as [|[uri dbName] calls IH]; simpl; [reflexivity|].
  now rewrite (Connect_cached _ _ _ _ _ H), IH.
Qed.

(** A first call that fails leaves the singleton empty, so the next call
    tries again. *)
Lemma Connect_Err_keeps_nil net uri dbName st e st' :
  db.clientInstance st = None ->
  db.Connect net uri dbName st = (Err e, st') -> db.clientInstance st' = None.
Proof.
  intros H. unfold db.Connect. rewrite H.
  destruct (mongo.Connect net uri (db.clients st)) as [[c|e0] cs].
  - destruct (mongo.Ping net c cs); intros [= <- <-]. reflexivity.
  - intros [= <- <-]. reflexivity.
Qed.

(** C9.  Connect is idempotent: once a call to Connect has succeeded with the
    instance [mc], every later call, whatever its connection string, its
    database name and the state of the network, returns [mc] again and leaves
    the process as it is; in particular the driver creates no client. *)
Theorem Connect_idempotent net uri dbName st mc st' :
  db.Connect net uri dbName st = (Ok mc, st') ->
  forall net' calls,
    db.ConnectAll net' calls st' = (replicate (length calls) (Ok mc), st').
Proof.
  intros H net' calls. apply ConnectAll_cached.
  exact (Connect_Ok_caches _ _ _ _ _ _ H).
Qed.

Lemma Connect_idempotent_witness :
  db.Connect spec.net_up "mongodb://localhost:27017" "test_database" db.init
  = (Ok (db.mkMongoClient (Some 0%nat) (Some (0%nat, "test_database"))),
     db.mkState
       (Some (db.mkMongoClient (Some 0%nat) (Some (0%nat, "test_database"))))
       [("mongodb://localhost:27017", true)] ["Connected to MongoDB!"])
  /\ db.ConnectAll spec.net_down
       [("mongodb://elsewhere:27017", "other"); ("", "")]
       (db.mkState
          (Some (db.mkMongoClient (Some 0%nat) (Some (0%nat, "test_database"))))
          [("mongodb://localhost:27017", true)] ["Connected to MongoDB!"])
     = ([Ok (db.mkMongoClient (Some 0%nat) (Some (0%nat, "test_database")));
         Ok (db.mkMongoClient (Some 0%nat) (Some (0%nat, "test_database")))],
        db.mkState
          (Some (db.mkMongoClient (Some 0%nat) (Some (0%nat, "test_database"))))
          [("mongodb://localhost:27017", true)] ["Connected to MongoDB!"]).
Proof.
  split; [reflexivity|].
  exact (Connect_idempotent spec.net_up "mongodb://localhost:27017"
           "test_database" db.init _ _ eq_refl spec.net_down
           [("mongodb://elsewhere:27017", "other"); ("", "")]).
Defined.

(** Disconnect on an open connection closes it and clears the singleton. *)
Lemma Disconnect_open mc st c uri :
  db.Client mc = Some c ->
  db.clients st !! c = Some (uri, true) ->
  db.Disconnect mc st
  = (None, db.mkState None (<[c := (uri, false)]> (db.clients st))
             (db.log st ++ ["Disconnected from MongoDB!"])).
Proof.
  intros Hc Hl. unfold db.Disconnect, mongo.Disconnect. now rewrite Hc, Hl.
Qed.

(** Disconnect on a MongoClient without a client does nothing. *)
Lemma Disconnect_nil_client mc st :
  db.Client mc = None -> db.Disconnect mc st = (None, st).
Proof. intros Hc. unfold db.Disconnect. now rewrite Hc. Qed.

(** Disconnect leaves [mc.Client] set, so a second call asks the driver to
    disconnect a client that no longer is, and hands back its error. *)
Lemma Disconnect_closed mc st c uri :
  db.Client mc = Some c ->
  db.clients st !! c = Some (uri, false) ->
  db.Disconnect mc st
  = (Some ("failed to disconnect from MongoDB: " +:+ mongo.ErrClientDisconnected),
     st).
Proof.
  intros Hc Hl. unfold db.Disconnect, mongo.Disconnect. rewrite Hc, Hl.
  now destruct st.
Qed.

Lemma Disconnect_twice mc st c uri st1 :
  db.Client mc = Some c ->
  db.clients st !! c = Some (uri, true) ->
  db.Disconnect mc st = (None, st1) ->
  db.clientInstance st1 = None
  /\ db.Disconnect mc st1
     = (Some ("failed to disconnect from MongoDB: " +:+ mongo.ErrClientDisconnected),
        st1).
Proof.
  intros Hc Hl. rewrite (Disconnect_open _ _ _ _ Hc Hl). intros [= <-].
  split; [reflexivity|].
  apply (Disconnect_closed _ _ c uri); [exact Hc|]. simpl.
  apply list_lookup_insert_eq. now apply lookup_lt_Some in Hl.
Qed.

(** C10.  After Connect, a first Disconnect closes the connection and
    clears the singleton; a second Disconnect on the same MongoClient, whose
    connection is then already closed, is not a no-op without error: it
    returns the driver's error. *)
Theorem Disconnect_when_closed_returns_error :
  exists mc st1 st2,
    db.Connect spec.net_up "mongodb://localhost:27017" "test_database" db.init
    = (Ok mc, st1)
    /\ db.Disconnect mc st1 = (None, st2)
    /\ db.clientInstance st2 = None
    /\ db.clients st2 = [("mongodb://localhost:27017", false)]
    /\ db.Disconnect mc st2
       = (Some "failed to disconnect from MongoDB: client is disconnected", st2).
Proof. do 3 eexists. repeat split; reflexivity. Qed.

End Connection.

(* ===================================================================== *)
(** ** Package api: identifiers, missing documents, empty updates *)
(* ===================================================================== *)

Section Handlers.

Lemma writeJSON_id (st : Z) (h : string) :
  api.writeJSON st (go.map_string {[ "id" := h ]})
  = api.mkResponse st (api.JSON (json.Object {[ "id" := json.Str h ]})).
Proof.
  unfold api.writeJSON, json.Marshal. simpl. now rewrite map_fmap_singleton.
Qed.

(** C6.  GET /users/{id} with an id that is not a valid hex identifier is
    answered 400 "invalid id", never 500, and the server is left as it was:
    no database operation is attempted. *)
Theorem getUser_malformed_id (s : mongo.Server) (path : string) :
  spec.is_hex_id (strings.TrimPrefix path "/users/") = false ->
  api.getUser s path = (api.http_Error "invalid id" 400, s)
  /\ api.status (fst (api.getUser s path)) = 400
  /\ api.status (fst (api.getUser s path)) <> 500
  /\ mongo.oplog (snd (api.getUser s path)) = mongo.oplog s.
Proof.
  intros H. apply ObjectIDFromHex_None in H.
  unfold api.getUser. rewrite H. simpl. repeat split. discriminate.
Qed.

Lemma getUser_malformed_id_witness :
  spec.is_hex_id (strings.TrimPrefix "/users/not-a-valid-id" "/users/") = false
  /\ api.getUser (mongo.mkServer [] false 1 []) "/users/not-a-valid-id"
     = (api.http_Error "invalid id" 400, mongo.mkServer [] false 1 []).
Proof.
  split; [reflexivity|].
  apply (getUser_malformed_id (mongo.mkServer [] false 1 []) "/users/not-a-valid-id").
  reflexivity.
Defined.

Lemma foldl_append {A B : Type} (f : A -> B) (raws : list A) (out : option (list B)) :
  raws <> [] ->
  foldl (fun out raw => api.append out (f raw)) out raws
  = Some (default [] out ++ (f <$> raws)).
Proof.
  revert out. induction raws as [|r raws IH]; intros out Hne; [congruence|].
  simpl. destruct raws as [|r' raws'].
  - reflexivity.
  - rewrite IH by discriminate. unfold api.append at 1. simpl.
    now rewrite <- app_assoc.
Qed.

(** X21.  On a collection that is not empty, whose normalized documents
    the encoder accepts, listUsers answers 200 with an array that has one
    object for each stored document, in the order of the collection. *)
Lemma listUsers_array (s : mongo.Server) :
  mongo.reachable s = true ->
  mongo.users s <> [] ->
  json.supported
    (go.slice_map_any (Some ((fun d => api.listUsers_item (bson.Unmarshal d)) <$> mongo.users s)))
  = true ->
  fst (api.listUsers s)
  = api.mkResponse 200
      (api.JSON (json.Array
         ((fun d => json.Object (json.encode <$> api.listUsers_item (bson.Unmarshal d)))
            <$> mongo.users s))).
Proof.
  intros Hr Hne Hs. unfold api.listUsers, mongo.Find. simpl. rewrite Hr. simpl.
  rewrite foldl_append by (destruct (mongo.users s); [congruence|discriminate]).
  simpl. rewrite <- list_fmap_compose.
  change (api.listUsers_item ∘ bson.Unmarshal)
    with (fun d => api.listUsers_item (bson.Unmarshal d)).
  unfold api.writeJSON, json.Marshal. rewrite Hs. simpl.
  now rewrite <- list_fmap_compose.
Qed.

(** C7.  On the empty collection a successful GET /users answers 200, but
    its body is the JSON text null, not the empty array: the slice [out] is
    nil when the loop has run zero times. *)
Theorem listUsers_empty_collection_null (counter : Z) (ops : list mongo.Op) :
  api.listUsers (mongo.mkServer [] true counter ops)
  = (api.mkResponse 200 (api.JSON json.Null),
     mongo.mkServer [] true counter (ops ++ [mongo.OpFind]))
  /\ json.Null <> json.Array [].
Proof. split; [reflexivity|discriminate]. Qed.

Lemma find_absent oid (s : mongo.Server) :
  spec.absent oid s -> find (mongo.has_id oid) (mongo.users s) = None.
Proof.
  unfold spec.absent. induction 1 as [|d l Hd _ IH]; simpl; [reflexivity|].
  now rewrite Hd.
Qed.

Lemma find_present oid (s : mongo.Server) :
  spec.present oid s ->
  exists d, find (mongo.has_id oid) (mongo.users s) = Some d.
Proof.
  unfold spec.present. induction 1 as [d l Hd|d l _ IH]; simpl.
  - rewrite Hd. eauto.
  - destruct (mongo.has_id oid d); eauto.
Qed.

Lemma update_first_same p (d : gmap string bson.Value) l :
  find p l = Some d -> mongo.update_first p (fun _ => d) l = l.
Proof.
  induction l as [|x l IH]; simpl; [discriminate|].
  destruct (p x); [intros [= ->]; reflexivity|].
  intros H. now rewrite IH.
Qed.

Lemma set_users_same (s : mongo.Server) : mongo.set_users (mongo.users s) s = s.
Proof. now destruct s. Qed.

(** C8.  For a well-formed id that matches no stored document, on a server
    that answers, delete and update (with a body the server accepts as a $set
    operand) do not fail: they answer 200 with body {id}, not 404, and the
    collection is unchanged. *)
Theorem update_delete_unknown_id (s : mongo.Server) (path : string)
  (oid : primitive.ObjectID) :
  primitive.ObjectIDFromHex (strings.TrimPrefix path "/users/") = Some oid ->
  mongo.reachable s = true ->
  spec.absent oid s ->
  (api.deleteUser s path = (spec.ok_id oid, mongo.attempt (mongo.OpDeleteOne oid) s)
   /\ mongo.users (snd (api.deleteUser s path)) = mongo.users s)
  /\ (forall m : gmap string go.any,
        mongo.operand_ok (delete "id" m) = true ->
        api.updateUser s path (Ok (Some m))
        = (spec.ok_id oid,
           mongo.attempt (mongo.OpUpdateByID oid (mongo.set_ (Some (delete "id" m)))) s)
        /\ mongo.users (snd (api.updateUser s path (Ok (Some m)))) = mongo.users s).
Proof.
  intros Hid Hr Habs. pose proof (find_absent _ _ Habs) as Hf.
  assert (Hdel : api.deleteUser s path
                 = (spec.ok_id oid, mongo.attempt (mongo.OpDeleteOne oid) s)).
  { unfold api.deleteUser, mongo.DeleteOne. rewrite Hid. simpl.
    rewrite Hr, Hf. simpl. now rewrite writeJSON_id. }
  split.
  - split; [exact Hdel|]. now rewrite Hdel.
  - intros m Hm.
    assert (Hupd : api.updateUser s path (Ok (Some m))
                   = (spec.ok_id oid,
                      mongo.attempt
                        (mongo.OpUpdateByID oid (mongo.set_ (Some (delete "id" m)))) s)).
    { unfold api.updateUser, mongo.UpdateByID. rewrite Hid. simpl.
      rewrite Hr, Hm, Hf. simpl. now rewrite writeJSON_id. }
    split; [exact Hupd|]. now rewrite Hupd.
Qed.

Lemma update_delete_unknown_id_witness :
  api.deleteUser (mongo.mkServer [] true 1 []) "/users/65f0a1B2c3d4e5f601234567"
  = (spec.ok_id [101; 240; 161; 178; 195; 212; 229; 246; 1; 35; 69; 103],
     mongo.mkServer [] true 1
       [mongo.OpDeleteOne [101; 240; 161; 178; 195; 212; 229; 246; 1; 35; 69; 103]]).
Proof.
  apply (update_delete_unknown_id (mongo.mkServer [] true 1 [])
           "/users/65f0a1B2c3d4e5f601234567"
           [101; 240; 161; 178; 195; 212; 229; 246; 1; 35; 69; 103]).
  - reflexivity.
  - reflexivity.
  - constructor.
Defined.

(** C4.  For the id of a stored document, on a server that answers, an
    update whose body is the empty object answers 200 with body {id} and
    leaves the collection, and so the document, unchanged. *)
Theorem update_empty_body (s : mongo.Server) (path : string)
  (oid : primitive.ObjectID) :
  primitive.ObjectIDFromHex (strings.TrimPrefix path "/users/") = Some oid ->
  mongo.reachable s = true ->
  spec.present oid s ->
  api.updateUser s path (Ok (Some ∅))
  = (spec.ok_id oid,
     mongo.attempt (mongo.OpUpdateByID oid (mongo.set_ (Some ∅))) s)
  /\ mongo.users (snd (api.updateUser s path (Ok (Some ∅)))) = mongo.users s.
Proof.
  intros Hid Hr Hp. destruct (find_present _ _ Hp) as [d Hd].
  assert (H : api.updateUser s path (Ok (Some ∅))
              = (spec.ok_id oid,
                 mongo.attempt (mongo.OpUpdateByID oid (mongo.set_ (Some ∅))) s)).
  { unfold api.updateUser, mongo.UpdateByID. rewrite Hid. simpl.
    rewrite delete_empty. rewrite Hr. simpl.
    change (mongo.operand_ok ∅) with true. simpl. rewrite Hd.
    unfold mongo.apply_set. rewrite map_fold_empty.
    rewrite (update_first_same _ _ _ Hd). rewrite writeJSON_id.
    now destruct s. }
  split; [exact H|]. now rewrite H.
Qed.

End Handlers.

(* ===================================================================== *)
(** ** Package api: what an update leaves alone *)
(* ===================================================================== *)

Section UpdateFrame.

Lemma set_field_frame k v (d d' : gmap string bson.Value) :
  mongo.set_field k v d = Some d' ->
  d' !! "_id" = d !! "_id"
  /\ forall f, head (mongo.fields k) <> Some f -> d' !! f = d !! f.
Proof.
  unfold mongo.set_field. destruct (mongo.fields k) as [|f0 rest]; [discriminate|].
  case_bool_decide as Hid; [discriminate|].
  destruct (mongo.set_path rest v (d !! f0)) as [v'|]; [|discriminate].
  intros [= <-]. split.
  - now rewrite lookup_insert_ne.
  - intros f Hf. simpl in Hf. rewrite lookup_insert_ne; [reflexivity|congruence].
Qed.

Lemma apply_set_frame (m : gmap string go.any) (d : gmap string bson.Value) :
  forall d', mongo.apply_set m d = Some d' ->
  d' !! "_id" = d !! "_id"
  /\ forall f, ~ spec.names (Some m) f -> d' !! f = d !! f.
Proof.
  unfold mongo.apply_set.
  apply (map_fold_weak_ind
    (fun (r : option (gmap string bson.Value)) (m : gmap string go.any) =>
       forall d', r = Some d' ->
         d' !! "_id" = d !! "_id"
         /\ forall f, ~ spec.names (Some m) f -> d' !! f = d !! f)).
  - intros d' [= <-]. split; reflexivity.
  - intros k v m0 r Hk IH d' Hstep. destruct r as [d1|]; [|discriminate].
    destruct (IH d1 eq_refl) as [IHid IHf].
    destruct (set_field_frame _ _ _ _ Hstep) as [Hid Hf].
    split; [congruence|].
    intros f Hn. rewrite Hf, IHf; [reflexivity| |].
    + intros (m1 & k1 & [= <-] & Hsome & Hhead). apply Hn.
      exists (<[k := v]> m0), k1. split; [reflexivity|]. split; [|exact Hhead].
      destruct (decide (k = k1)) as [->|Hne].
      * rewrite lookup_insert_eq. eauto.
      * now rewrite lookup_insert_ne.
    + intros Hhead. apply Hn. exists (<[k := v]> m0), k.
      split; [reflexivity|]. split; [|exact Hhead].
      rewrite lookup_insert_eq. eauto.
Qed.

Lemma length_update_first p f (l : list (gmap string bson.Value)) :
  length (mongo.update_first p f l) = length l.
Proof.
  induction l as [|x l IH]; simpl; [reflexivity|].
  destruct (p x); simpl; congruence.
Qed.

Lemma update_first_lookup p f (l : list (gmap string bson.Value)) i d :
  l !! i = Some d ->
  mongo.update_first p f l !! i = Some d
  \/ (find p l = Some d /\ p d = true /\ mongo.update_first p f l !! i = Some (f d)).
Proof.
  revert i. induction l as [|x l IH]; intros i Hi; [discriminate|].
  simpl. destruct (p x) eqn:Hp.
  - destruct i as [|i]; simpl in *.
    + injection Hi as ->. right. auto.
    + now left.
  - destruct i as [|i]; simpl in *.
    + now left.
    + exact (IH i Hi).
Qed.

(** What UpdateByID does to the server: it records the attempt, and either
    leaves the collection alone or rewrites the first document with this
    identifier by the operand. *)
Lemma UpdateByID_cases oid u (s : mongo.Server) r s' :
  mongo.UpdateByID oid u s = (r, s') ->
  mongo.oplog s' = mongo.oplog s ++ [mongo.OpUpdateByID oid u]
  /\ (mongo.users s' = mongo.users s
      \/ exists m d0 d1,
           u = mongo.set_ (Some m)
           /\ find (mongo.has_id oid) (mongo.users s) = Some d0
           /\ mongo.apply_set m d0 = Some d1
           /\ mongo.users s'
              = mongo.update_first (mongo.has_id oid) (fun _ => d1) (mongo.users s)).
Proof.
  unfold mongo.UpdateByID. simpl.
  destruct (mongo.reachable s); simpl; [|intros [= <- <-]; auto].
  destruct u as [[m|]]; [|intros [= <- <-]; auto].
  destruct (mongo.operand_ok m); simpl; [|intros [= <- <-]; auto].
  destruct (find (mongo.has_id oid) (mongo.users s)) as [d0|] eqn:Hf;
    [|intros [= <- <-]; auto].
  destruct (mongo.apply_set m d0) as [d1|] eqn:Ha; intros [= <- <-]; simpl; [|auto].
  split; [reflexivity|]. right. exists m, d0, d1. auto.
Qed.

Lemma has_id_find oid (l : list (gmap string bson.Value)) d :
  find (mongo.has_id oid) l = Some d -> mongo.has_id oid d = true.
Proof. intros H. now apply find_some in H. Qed.

(** C3.  An update with a valid id and a body that decodes changes only the
    fields the body supplies: the operand sent to the server is the body
    without its id key; in every stored document the _id is what it was, as
    is every field that the operand does not name; and a document with
    another identifier is not touched at all. *)
Theorem update_changes_only_named_fields (s : mongo.Server) (path : string)
  (oid : primitive.ObjectID) (body : option (gmap string go.any))
  (resp : api.Response) (s' : mongo.Server) :
  primitive.ObjectIDFromHex (strings.TrimPrefix path "/users/") = Some oid ->
  api.updateUser s path (Ok body) = (resp, s') ->
  mongo.oplog s'
  = mongo.oplog s ++ [mongo.OpUpdateByID oid (mongo.set_ (delete "id" <$> body))]
  /\ length (mongo.users s') = length (mongo.users s)
  /\ forall i d, mongo.users s !! i = Some d ->
       exists d', mongo.users s' !! i = Some d'
         /\ d' !! "_id" = d !! "_id"
         /\ (forall f, ~ spec.names (delete "id" <$> body) f -> d' !! f = d !! f)
         /\ (mongo.has_id oid d = false -> d' = d).
Proof.
  intros Hid. unfold api.updateUser. rewrite Hid.
  destruct (mongo.UpdateByID oid (mongo.set_ (delete "id" <$> body)) s)
    as [r s1] eqn:Hu.
  intros Hresp. assert (s1 = s') as ->. { destruct r; now injection Hresp. }
  clear Hresp. destruct (UpdateByID_cases _ _ _ _ _ Hu) as [Hlog Hcases].
  split; [exact Hlog|].
  destruct Hcases as [Hsame|(m & d0 & d1 & Hm & Hfind & Happly & Hus)].
  - rewrite Hsame. split; [reflexivity|]. intros i d Hi. exists d. auto.
  - rewrite Hus. split; [apply length_update_first|]. intros i d Hi.
    destruct (update_first_lookup (mongo.has_id oid) (fun _ => d1) _ i d Hi)
      as [Hkeep|(Hfd & Hpd & Hnew)].
    + exists d. auto.
    + exists d1. rewrite Hfind in Hfd. injection Hfd as ->.
      destruct (apply_set_frame _ _ _ Happly) as [Hid' Hframe].
      injection Hm as Hm. rewrite Hm. repeat split; try assumption.
      intros Hno. congruence.
Qed.

Lemma update_changes_only_named_fields_witness :
  exists d',
    mongo.users
      (snd (api.updateUser spec.srv_ann spec.ann_path
              (Ok (Some (<["age" := go.float64 (S754_finite false 1 5)]>
                            (<["id" := go.string_ "x"]> ∅)))))) !! 0%nat = Some d'
    /\ d' !! "_id" = spec.ann_doc !! "_id"
    /\ d' !! "name" = spec.ann_doc !! "name".
Proof.
  destruct (update_changes_only_named_fields spec.srv_ann spec.ann_path spec.ann_id
              (Some (<["age" := go.float64 (S754_finite false 1 5)]>
                       (<["id" := go.string_ "x"]> ∅)))
              _ _ eq_refl (surjective_pairing _)) as (_ & _ & H).
  destruct (H 0%nat spec.ann_doc eq_refl) as (d' & Hl & Hid & Hf & _).
  exists d'. repeat split; [exact Hl|exact Hid|].
  apply Hf. intros (m & k & [= <-] & Hk & Hh).
  destruct (decide (k = "id")) as [->|Hne1].
  { rewrite lookup_delete_eq in Hk. now destruct Hk. }
  rewrite lookup_delete_ne in Hk by congruence.
  destruct (decide (k = "age")) as [->|Hne2]; [discriminate Hh|].
  rewrite lookup_insert_ne in Hk by congruence.
  rewrite lookup_insert_ne in Hk by congruence.
  rewrite lookup_empty in Hk. now destruct Hk.
Defined.

Lemma update_empty_body_witness :
  api.updateUser spec.srv_ann spec.ann_path (Ok (Some ∅))
  = (spec.ok_id spec.ann_id,
     mongo.attempt (mongo.OpUpdateByID spec.ann_id (mongo.set_ (Some ∅))) spec.srv_ann).
Proof.
  apply (update_empty_body spec.srv_ann spec.ann_path spec.ann_id).
  - reflexivity.
  - reflexivity.
  - constructor. reflexivity.
Defined.

End UpdateFrame.

(* ===================================================================== *)
(** ** Package time: what Format writes, Parse reads *)
(* ===================================================================== *)

Section TimeFormat.

Lemma digit_cases (d : Z) :
  0 <= d < 10 ->
  d = 0 \/ d = 1 \/ d = 2 \/ d = 3 \/ d = 4 \/ d = 5 \/ d = 6 \/ d = 7 \/
  d = 8 \/ d = 9.
Proof. lia. Qed.

Lemma digitVal_digitChar (d : Z) :
  0 <= d < 10 -> time.digitVal (time.digitChar d) = Some d.
Proof.
  intros H. destruct (digit_cases d H) as
    [->|[->|[->|[->|[->|[->|[->|[->|[->| ->]]]]]]]]]; reflexivity.
Qed.

Lemma num2_digits (x : Z) :
  0 <= x < 100 ->
  time.num2 (time.digitChar (x / 10)) (time.digitChar (x mod 10)) = Some x.
Proof.
  intros H. unfold time.num2.
  rewrite !digitVal_digitChar by (Z.div_mod_to_equations; lia).
  f_equal. Z.div_mod_to_equations; lia.
Qed.

Lemma num4_digits (y : Z) :
  0 <= y < 10000 ->
  time.num4 (time.digitChar (y / 100 / 10)) (time.digitChar (y / 100 mod 10))
            (time.digitChar (y mod 100 / 10)) (time.digitChar (y mod 100 mod 10))
  = Some y.
Proof.
  intros H. unfold time.num4.
  rewrite !num2_digits by (Z.div_mod_to_equations; lia).
  f_equal. Z.div_mod_to_equations; lia.
Qed.

Lemma appendInt_2 (x : Z) (rest : string) :
  0 <= x < 100 ->
  time.appendInt x 2 rest
  = String (time.digitChar (x / 10)) (String (time.digitChar (x mod 10)) rest).
Proof.
  intros H. unfold time.appendInt. rewrite Z.abs_eq by lia.
  replace (x <? 100) with true by (symmetry; apply Z.ltb_lt; lia).
  replace (x <? 0) with false by (symmetry; apply Z.ltb_ge; lia).
  reflexivity.
Qed.

Lemma appendInt_4 (y : Z) (rest : string) :
  0 <= y < 10000 ->
  time.appendInt y 4 rest
  = String (time.digitChar (y / 100 / 10))
      (String (time.digitChar (y / 100 mod 10))
        (String (time.digitChar (y mod 100 / 10))
          (String (time.digitChar (y mod 100 mod 10)) rest))).
Proof.
  intros H. unfold time.appendInt. rewrite Z.abs_eq by lia.
  replace (y <? 10000) with true by (symmetry; apply Z.ltb_lt; lia).
  replace (y <? 0) with false by (symmetry; apply Z.ltb_ge; lia).
  reflexivity.
Qed.

Lemma range_all_spec (f : Z -> bool) (n : positive) :
  forall lo, spec.range_all f lo n = true ->
  forall x, lo <= x < lo + Z.pos n -> f x = true.
Proof.
  induction n as [n IH|n IH|]; simpl; intros lo H x Hx.
  - apply andb_prop in H. destruct H as [H H2].
    apply andb_prop in H. destruct H as [H0 H1].
    destruct (Z.eq_dec x lo) as [->|Hne]; [exact H0|].
    destruct (Z_lt_le_dec x (lo + 1 + Z.pos n)).
    + apply (IH _ H1). lia.
    + apply (IH _ H2). lia.
  - apply andb_prop in H. destruct H as [H1 H2].
    destruct (Z_lt_le_dec x (lo + Z.pos n)).
    + apply (IH _ H1). lia.
    + apply (IH _ H2). lia.
  - now replace x with lo by lia.
Qed.

Lemma civil_ok_all : spec.range_all spec.civil_ok 0 146097 = true.
Proof. vm_compute. reflexivity. Qed.

Lemma isLeap_period (y e : Z) : time.isLeap (y + e * 400) = time.isLeap y.
Proof.
  unfold time.isLeap.
  replace ((y + e * 400) mod 4) with (y mod 4)
    by (replace (y + e * 400) with (y + (e * 100) * 4) by lia;
        now rewrite Z_mod_plus_full).
  replace ((y + e * 400) mod 100) with (y mod 100)
    by (replace (y + e * 400) with (y + (e * 4) * 100) by lia;
        now rewrite Z_mod_plus_full).
  now rewrite Z_mod_plus_full.
Qed.

Lemma daysIn_period (m y e : Z) : time.daysIn m (y + e * 400) = time.daysIn m y.
Proof. unfold time.daysIn. now rewrite isLeap_period. Qed.

(** Every day number has a real calendar date. *)
Lemma civil_from_days_ok (z y m d : Z) :
  time.civil_from_days z = (y, m, d) ->
  1 <= m <= 12 /\ 1 <= d <= time.daysIn m y.
Proof.
  unfold time.civil_from_days.
  set (era := (z + 719468) / 146097). set (doe := (z + 719468) mod 146097).
  assert (Hdoe : 0 <= doe < 146097) by (apply Z.mod_pos_bound; lia).
  assert (Hall : spec.civil_ok doe = true)
    by (apply (range_all_spec _ _ _ civil_ok_all); lia).
  clearbody era doe.
  unfold spec.civil_ok, time.civil_of_doe in *.
  set (yoe := (doe - doe / 1460 + doe / 36524 - doe / 146096) / 365) in *.
  set (doy := doe - (365 * yoe + yoe / 4 - yoe / 100)) in *.
  set (mp := (5 * doy + 2) / 153) in *.
  set (dd := doy - (153 * mp + 2) / 5 + 1) in *.
  set (mm := if mp <? 10 then mp + 3 else mp - 9) in *.
  clearbody mm dd. clear mp doy.
  replace (yoe + 0 * 400) with yoe in Hall by lia.
  intros [= <- <- <-].
  repeat (apply andb_prop in Hall; destruct Hall as [Hall ?]).
  assert (Hd : time.daysIn mm (if mm <=? 2 then yoe + era * 400 + 1 else yoe + era * 400)
               = time.daysIn mm (if mm <=? 2 then yoe + 1 else yoe)).
  { destruct (mm <=? 2).
    - replace (yoe + era * 400 + 1) with (yoe + 1 + era * 400) by lia.
      apply daysIn_period.
    - apply daysIn_period. }
  rewrite Hd. lia.
Qed.

(** The shape Parse_RFC3339 sees in a text written by Format in UTC. *)
Lemma Parse_RFC3339_Z (y1 y2 y3 y4 m1 m2 d1 d2 h1 h2 n1 n2 s1 s2 : ascii) :
  time.Parse_RFC3339
    (String y1 (String y2 (String y3 (String y4 (String "-"
    (String m1 (String m2 (String "-"
    (String d1 (String d2 (String "T"
    (String h1 (String h2 (String ":"
    (String n1 (String n2 (String ":"
    (String s1 (String s2 (String "Z" EmptyString))))))))))))))))))))
  = match time.num4 y1 y2 y3 y4, time.num2 m1 m2, time.num2 d1 d2,
          time.num2 h1 h2, time.num2 n1 n2, time.num2 s1 s2 with
    | Some y, Some m, Some d, Some h, Some n, Some s0 =>
        if (1 <=? m) && (m <=? 12) && (1 <=? d) && (d <=? time.daysIn m y)
           && (h <? 24) && (n <? 60) && (s0 <? 60) then
          Some (time.mkTime (time.days_from_civil y m d * 86400
                             + h * 3600 + n * 60 + s0 - 0) 0 0)
        else None
    | _, _, _, _, _, _ => None
    end.
Proof. reflexivity. Qed.

(** A time whose year in UTC is between 0 and 9999 is written by
    Format(time.RFC3339), after UTC(), as a valid RFC 3339 text in UTC. *)
Lemma Format_RFC3339_UTC_valid (t : time.Time) :
  0 <= time.Year (time.UTC t) <= 9999 ->
  time.valid_RFC3339_UTC (time.Format_RFC3339 (time.UTC t)) = true.
Proof.
  unfold time.Year, time.Date, time.Format_RFC3339, time.appendDateClock.
  change (time.offset (time.UTC t)) with 0.
  change (time.appendZone 0 EmptyString) with (String "Z" EmptyString).
  set (a := time.abs (time.UTC t)).
  destruct (time.civil_from_days (a / 86400)) as [[y m] d] eqn:E. simpl.
  intros Hy. destruct (civil_from_days_ok _ _ _ _ E) as [Hm Hd].
  assert (Hdm : time.daysIn m y <= 31).
  { unfold time.daysIn. destruct (m =? 2); [destruct (time.isLeap y); lia|].
    destruct ((m =? 4) || (m =? 6) || (m =? 9) || (m =? 11)); lia. }
  assert (Hsod : 0 <= a mod 86400 < 86400) by (apply Z.mod_pos_bound; lia).
  set (sod := a mod 86400) in *. clearbody sod.
  assert (Hh : 0 <= sod / 3600 < 24) by (Z.div_mod_to_equations; lia).
  assert (Hn : 0 <= sod mod 3600 / 60 < 60) by (Z.div_mod_to_equations; lia).
  assert (Hs : 0 <= sod mod 60 < 60) by (Z.div_mod_to_equations; lia).
  rewrite appendInt_4 by lia. rewrite !appendInt_2 by lia.
  unfold time.valid_RFC3339_UTC. rewrite Parse_RFC3339_Z.
  rewrite num4_digits by lia. rewrite !num2_digits by lia.
  replace ((1 <=? m) && (m <=? 12) && (1 <=? d) && (d <=? time.daysIn m y)
           && (sod / 3600 <? 24) && (sod mod 3600 / 60 <? 60) && (sod mod 60 <? 60))
    with true; [reflexivity|].
  symmetry. repeat (apply andb_true_intro; split); lia.
Qed.

(** A time and the datetime the BSON codec keeps of it are written alike:
    the codec keeps the milliseconds, Format the seconds. *)
Lemma DateTime_keeps_seconds (t : time.Time) :
  0 <= time.nsec t < 1000000000 ->
  time.sec (bson.DateTime_Time (bson.NewDateTimeFromTime t)) = time.sec t.
Proof.
  intros Hn. unfold bson.DateTime_Time, bson.NewDateTimeFromTime, time.Unix.
  set (s := time.sec t) in *. set (k := time.nsec t / 1000000) in *.
  assert (Hk : 0 <= k < 1000) by (unfold k; Z.div_mod_to_equations; lia).
  clearbody s k.
  pose proof (Z.quot_rem' (s * 1000 + k) 1000) as Hqr.
  pose proof (Z.rem_bound_pos_pos (s * 1000 + k) 1000) as Hpos.
  pose proof (Z.rem_bound_pos_neg (s * 1000 + k) 1000) as Hneg.
  set (q := Z.quot (s * 1000 + k) 1000) in *.
  set (r := Z.rem (s * 1000 + k) 1000) in *. clearbody q r.
  assert (Hr : -1000 < r < 1000) by lia.
  destruct ((r * 1000000 <? 0) || (1000000000 <=? r * 1000000)) eqn:Hc.
  - assert (Hrn : r < 0) by (apply orb_prop in Hc; destruct Hc as [Hc|Hc]; lia).
    assert (Hq0 : Z.quot (r * 1000000) 1000000000 = 0)
      by (apply Z.quot_small_iff; lia).
    rewrite Hq0.
    replace (r * 1000000 - 0 * 1000000000 <? 0) with true
      by (symmetry; apply Z.ltb_lt; lia).
    simpl. lia.
  - apply orb_false_elim in Hc. destruct Hc as [Hc1 Hc2]. simpl. lia.
Qed.

Lemma Format_RFC3339_UTC_sec (t u : time.Time) :
  time.sec t = time.sec u ->
  time.Format_RFC3339 (time.UTC t) = time.Format_RFC3339 (time.UTC u).
Proof.
  intros H. unfold time.Format_RFC3339, time.appendDateClock, time.abs, time.UTC.
  simpl. now rewrite H.
Qed.

Lemma Format_DateTime (t : time.Time) :
  0 <= time.nsec t < 1000000000 ->
  time.Format_RFC3339 (time.UTC (bson.DateTime_Time (bson.NewDateTimeFromTime t)))
  = time.Format_RFC3339 (time.UTC t).
Proof. intros H. apply Format_RFC3339_UTC_sec. now apply DateTime_keeps_seconds. Qed.

End TimeFormat.

(* ===================================================================== *)
(** ** Package api: normalization of age and created_at *)
(* ===================================================================== *)

Section Normalization.

(** The two handlers build the same map from a document that has an
    ObjectID. *)
Lemma listUsers_item_getUser_resp (raw : gmap string go.any) (o : primitive.ObjectID) :
  raw !! "_id" = Some (go.ObjectID o) ->
  api.listUsers_item raw = api.getUser_resp raw.
Proof.
  intros H. unfold api.listUsers_item, api.getUser_resp. rewrite H.
  now rewrite insert_singleton_eq, insert_empty.
Qed.

(** The type switch on created_at writes no other key. *)
Lemma copy_created_at_other (raw m : gmap string go.any) (k : string) :
  k <> "created_at" -> api.copy_created_at raw m !! k = m !! k.
Proof.
  intros Hk. unfold api.copy_created_at.
  destruct (raw !! "created_at") as [cat|]; [|reflexivity].
  destruct cat; try (now rewrite lookup_insert_ne).
  destruct (m0 !! "$date") as [[]|]; try (now rewrite lookup_insert_ne).
  destruct (time.Parse_RFC3339 s); now rewrite lookup_insert_ne.
Qed.

(** X22.  An age held as an int32, an int or a float64 comes out of get and
    of list as an int, which the encoder writes as an integer literal; a
    float64 loses its fraction. *)
Lemma age_plain_integer (raw : gmap string go.any) (v : go.any) (n : Z) :
  raw !! "age" = Some v ->
  v = go.int32 n \/ v = go.int n
  \/ (exists f, v = go.float64 f /\ n = go.int_of_float64 f) ->
  api.getUser_resp raw !! "age" = Some (go.int n)
  /\ api.listUsers_item raw !! "age" = Some (go.int n)
  /\ json.encode (go.int n) = json.Int n.
Proof.
  intros Hage Hv. unfold api.getUser_resp, api.listUsers_item.
  rewrite !copy_created_at_other by discriminate.
  unfold api.copy_age. rewrite Hage.
  destruct Hv as [->|[->|(f & -> & ->)]]; rewrite !lookup_insert_eq; auto.
Qed.

(** C5.  An age stored as a 64-bit integer does not come out as a plain
    integer: it does not come out at all.  POST /users with age 3000000000
    stores the age as a BSON int64, which the driver decodes as an int64, a
    type that none of the three cases (int32, int, float64) matches; GET
    /users/{id} and GET /users then answer without an age. *)
Theorem age_int64_is_dropped :
  let created :=
    api.createUser spec.now0 spec.srv_empty
      (Ok (api.decodePayload (api.mkPayload None None (Some 3000000000) None))) in
  let stored :=
    <["_id" := bson.ObjectId [0; 0; 0; 0; 0; 0; 0; 0; 0; 0; 0; 1]]>
      (<["age" := bson.Int64 3000000000]>
        (<["created_at" := bson.DateTime 1700000000123]> ∅)) in
  let answer : gmap string json.Value :=
    <["id" := json.Str "000000000000000000000001"]>
      (<["created_at" := json.Str "2023-11-14T22:13:20Z"]> ∅) in
  api.status (fst created) = 201
  /\ mongo.users (snd created) = [stored]
  /\ bson.Unmarshal stored !! "age" = Some (go.int64 3000000000)
  /\ fst (api.getUser (snd created) spec.first_path)
     = api.mkResponse 200 (api.JSON (json.Object answer))
  /\ fst (api.listUsers (snd created))
     = api.mkResponse 200 (api.JSON (json.Array [json.Object answer]))
  /\ answer !! "age" = None.
Proof. cbv zeta. repeat apply conj; vm_compute; reflexivity. Qed.

(** A value of created_at that no case of the type switch converts is
    passed through as it is. *)
Lemma created_at_passes_through (raw : gmap string go.any) (cat : go.any) :
  raw !! "created_at" = Some cat ->
  spec.unconverted cat = true ->
  api.getUser_resp raw !! "created_at" = Some cat
  /\ api.listUsers_item raw !! "created_at" = Some cat.
Proof.
  intros H Hu. unfold api.getUser_resp, api.listUsers_item, api.copy_created_at.
  rewrite H. destruct cat; try discriminate; now rewrite !lookup_insert_eq.
Qed.




End Normalization.

(* ===================================================================== *)
(** ** Package api: create, then get *)
(* ===================================================================== *)

Section CreateGet.

Lemma be_bytes_wf (k : nat) (n : Z) :
  length (primitive.be_bytes k n) = k /\ Forall primitive.is_byte (primitive.be_bytes k n).
Proof.
  revert n. induction k as [|k IH]; intros n; simpl; [split; constructor|].
  destruct (IH (Z.shiftr n 8)) as [Hl Hb]. split.
  - rewrite length_app, Hl. simpl. lia.
  - apply Forall_app. split; [exact Hb|]. constructor; [|constructor].
    unfold primitive.is_byte. change 255 with (Z.ones 8).
    rewrite Z.land_ones by lia. apply Z.mod_pos_bound. lia.
Qed.

Lemma NewObjectID_wf (s : mongo.Server) : primitive.wf_oid (mongo.NewObjectID s).
Proof. apply be_bytes_wf. Qed.

Lemma lookup_unless_eq b k v (d : gmap string bson.Value) :
  api.unless b k v d !! k = if b then d !! k else Some v.
Proof. unfold api.unless. destruct b; [reflexivity|apply lookup_insert_eq]. Qed.

Lemma lookup_unless_ne b k k' v (d : gmap string bson.Value) :
  k <> k' -> api.unless b k v d !! k' = d !! k'.
Proof. intros H. unfold api.unless. destruct b; [reflexivity|now apply lookup_insert_ne]. Qed.

Ltac unless_lookup :=
  unfold api.MarshalUser;
  repeat first [ rewrite lookup_unless_ne by discriminate
               | rewrite lookup_unless_eq
               | rewrite lookup_empty ].

Lemma MarshalUser_id u :
  api.MarshalUser u !! "_id"
  = if primitive.oid_IsZero (api.ID u) then None else Some (bson.ObjectId (api.ID u)).
Proof. unless_lookup. reflexivity. Qed.

Lemma MarshalUser_name u :
  api.MarshalUser u !! "name"
  = if bool_decide (api.Name u = EmptyString) then None
    else Some (bson.String_ (api.Name u)).
Proof. unless_lookup. reflexivity. Qed.

Lemma MarshalUser_email u :
  api.MarshalUser u !! "email"
  = if bool_decide (api.Email u = EmptyString) then None
    else Some (bson.String_ (api.Email u)).
Proof. unless_lookup. reflexivity. Qed.

Lemma MarshalUser_age u :
  api.MarshalUser u !! "age"
  = if api.Age u =? 0 then None
    else Some (if bson.fitsIn32Bits (api.Age u) then bson.Int32 (api.Age u)
               else bson.Int64 (api.Age u)).
Proof. unless_lookup. reflexivity. Qed.

Lemma MarshalUser_created_at u :
  api.MarshalUser u !! "created_at"
  = if time.IsZero (api.CreatedAt u) then None
    else Some (bson.DateTime (bson.NewDateTimeFromTime (api.CreatedAt u))).
Proof. unless_lookup. reflexivity. Qed.

Lemma find_app_last {A : Type} (p : A -> bool) (l : list A) (x : A) :
  Forall (fun d => p d = false) l -> p x = true -> find p (l ++ [x]) = Some x.
Proof.
  induction 1 as [|d l Hd _ IH]; simpl; intros Hx.
  - now rewrite Hx.
  - rewrite Hd. now apply IH.
Qed.

Lemma existsb_absent {A : Type} (p : A -> bool) (l : list A) :
  Forall (fun d => p d = false) l -> existsb p l = false.
Proof. induction 1 as [|d l Hd _ IH]; simpl; [reflexivity|]. now rewrite Hd. Qed.

(** The steps of the normalization, on a document whose fields are known. *)
Lemma copy_name_put (raw m : gmap string go.any) (o : option string) :
  raw !! "name" = go.string_ <$> o ->
  api.copy_name raw m = spec.put "name" (go.string_ <$> o) m.
Proof. intros H. unfold api.copy_name. rewrite H. now destruct o. Qed.

Lemma copy_email_put (raw m : gmap string go.any) (o : option string) :
  raw !! "email" = go.string_ <$> o ->
  api.copy_email raw m = spec.put "email" (go.string_ <$> o) m.
Proof. intros H. unfold api.copy_email. rewrite H. now destruct o. Qed.

Lemma copy_age_put (raw m : gmap string go.any) (o : option Z) :
  raw !! "age" = go.int32 <$> o ->
  api.copy_age raw m = spec.put "age" (go.int <$> o) m.
Proof. intros H. unfold api.copy_age. rewrite H. now destruct o. Qed.

Lemma copy_created_at_DateTime (raw m : gmap string go.any) (ms : Z) :
  raw !! "created_at" = Some (go.DateTime ms) ->
  api.copy_created_at raw m
  = <["created_at" :=
        go.string_ (time.Format_RFC3339 (time.UTC (bson.DateTime_Time ms)))]> m.
Proof. intros H. unfold api.copy_created_at. now rewrite H. Qed.

Lemma fmap_put {V W : Type} (f : V -> W) (k : string) (o : option V) (m : gmap string V) :
  f <$> spec.put k o m = spec.put k (f <$> o) (f <$> m).
Proof. destruct o; simpl; [apply fmap_insert|reflexivity]. Qed.

Lemma Supported_put (k : string) (o : option go.any) (m : gmap string go.any) :
  (forall v, o = Some v -> json.supported v = true) ->
  spec.Supported m -> spec.Supported (spec.put k o m).
Proof.
  intros Ho Hm. destruct o as [v|]; simpl; [|exact Hm].
  apply map_Forall_insert_2; auto.
Qed.

Lemma supported_map_any (m : gmap string go.any) :
  spec.Supported m -> json.supported (go.map_any m) = true.
Proof.
  intros H. simpl. unfold go.all_true. apply bool_decide_eq_true.
  now apply map_Forall_fmap.
Qed.

Lemma writeJSON_map_any (st : Z) (m : gmap string go.any) :
  spec.Supported m ->
  api.writeJSON st (go.map_any m)
  = api.mkResponse st (api.JSON (json.Object (json.encode <$> m))).
Proof.
  intros H. unfold api.writeJSON, json.Marshal.
  now rewrite (supported_map_any _ H).
Qed.

(** What createUser stores when the payload has no id, and what it
    answers. *)
Lemma createUser_stores (now : time.Time) (s : mongo.Server) (u : api.User) :
  api.ID u = primitive.NilObjectID ->
  mongo.reachable s = true ->
  spec.absent (mongo.NewObjectID s) s ->
  let oid := mongo.NewObjectID s in
  let u1 := if time.IsZero (api.CreatedAt u)
            then api.mkUser (api.ID u) (api.Name u) (api.Email u) (api.Age u) (time.UTC now)
            else u in
  let doc := <["_id" := bson.ObjectId oid]> (api.MarshalUser u1) in
  api.createUser now s (Ok u)
  = (api.mkResponse 201 (api.JSON (json.Object {[ "id" := json.Str (primitive.Hex oid) ]})),
     mongo.mkServer (mongo.users s ++ [doc]) true (mongo.oid_counter s + 1)
       (mongo.oplog s ++ [mongo.OpInsertOne (api.MarshalUser u1)])).
Proof.
  intros Hid Hr Habs oid u1 doc. unfold api.createUser. fold u1.
  assert (Hu1 : api.ID u1 = primitive.NilObjectID).
  { unfold u1. now destruct (time.IsZero (api.CreatedAt u)). }
  unfold mongo.InsertOne. rewrite MarshalUser_id, Hu1.
  change (primitive.oid_IsZero primitive.NilObjectID) with true.
  cbv beta iota zeta. simpl mongo.reachable. rewrite Hr.
  simpl mongo.users.
  change (mongo.NewObjectID (mongo.attempt (mongo.OpInsertOne (api.MarshalUser u1)) s))
    with oid.
  unfold spec.absent in Habs. fold oid in Habs. rewrite (existsb_absent _ _ Habs).
  cbn [negb]. cbv beta iota. rewrite writeJSON_id.
  unfold mongo.set_users, mongo.next_oid, mongo.attempt.
  cbn [mongo.users mongo.reachable mongo.oid_counter mongo.oplog].
  now rewrite Hr.
Qed.

(** What getUser answers for a stored document that createUser wrote. *)
Lemma getUser_created (s : mongo.Server) (oid : primitive.ObjectID)
  (doc : gmap string bson.Value) (name email : option string) (age : option Z)
  (ms : Z) :
  primitive.wf_oid oid ->
  mongo.reachable s = true ->
  find (mongo.has_id oid) (mongo.users s) = Some doc ->
  doc !! "_id" = Some (bson.ObjectId oid) ->
  doc !! "name" = bson.String_ <$> name ->
  doc !! "email" = bson.String_ <$> email ->
  doc !! "age" = bson.Int32 <$> age ->
  doc !! "created_at" = Some (bson.DateTime ms) ->
  fst (api.getUser s ("/users/" +:+ primitive.Hex oid))
  = api.mkResponse 200 (api.JSON (json.Object
      (<["created_at" :=
           json.Str (time.Format_RFC3339 (time.UTC (bson.DateTime_Time ms)))]>
         (spec.put "age" (json.Int <$> age)
           (spec.put "email" (json.Str <$> email)
             (spec.put "name" (json.Str <$> name)
               {[ "id" := json.Str (primitive.Hex oid) ]})))))).
Proof.
  intros Hwf Hr Hfind Hid Hname Hemail Hage Hcat.
  unfold api.getUser. rewrite TrimPrefix_app, (ObjectIDFromHex_Hex _ Hwf).
  unfold mongo.FindOne. simpl mongo.reachable. rewrite Hr.
  simpl mongo.users. rewrite Hfind. cbv beta iota. simpl fst.
  set (raw := bson.Unmarshal doc).
  assert (Rid : raw !! "_id" = Some (go.ObjectID oid))
    by (unfold raw, bson.Unmarshal; now rewrite lookup_fmap, Hid).
  assert (Rname : raw !! "name" = go.string_ <$> name)
    by (unfold raw, bson.Unmarshal; rewrite lookup_fmap, Hname; now destruct name).
  assert (Remail : raw !! "email" = go.string_ <$> email)
    by (unfold raw, bson.Unmarshal; rewrite lookup_fmap, Hemail; now destruct email).
  assert (Rage : raw !! "age" = go.int32 <$> age)
    by (unfold raw, bson.Unmarshal; rewrite lookup_fmap, Hage; now destruct age).
  assert (Rcat : raw !! "created_at" = Some (go.DateTime ms))
    by (unfold raw, bson.Unmarshal; now rewrite lookup_fmap, Hcat).
  clearbody raw.
  assert (Hresp : api.getUser_resp raw
    = <["created_at" :=
          go.string_ (time.Format_RFC3339 (time.UTC (bson.DateTime_Time ms)))]>
        (spec.put "age" (go.int <$> age)
          (spec.put "email" (go.string_ <$> email)
            (spec.put "name" (go.string_ <$> name)
              {[ "id" := go.string_ (primitive.Hex oid) ]})))).
  { unfold api.getUser_resp. rewrite Rid. cbv beta iota zeta.
    rewrite insert_singleton_eq.
    rewrite (copy_created_at_DateTime _ _ _ Rcat).
    rewrite (copy_age_put _ _ _ Rage), (copy_email_put _ _ _ Remail).
    now rewrite (copy_name_put _ _ _ Rname). }
  rewrite Hresp. rewrite writeJSON_map_any.
  - rewrite fmap_insert, !fmap_put, map_fmap_singleton.
    now destruct age, email, name.
  - apply map_Forall_insert_2; [reflexivity|].
    apply Supported_put; [now destruct age; intros v [= <-]|].
    apply Supported_put; [now destruct email; intros v [= <-]|].
    apply Supported_put; [now destruct name; intros v [= <-]|].
    now apply map_Forall_singleton.
Qed.



(** The scenario of the specification: the payload of Ann comes back with
    the same field values. *)
Lemma same_fields_ann :
  spec.same_fields spec.ann_payload spec.now0
    (fst (api.getUser
            (snd (api.createUser spec.now0 spec.srv_empty
                    (Ok (api.decodePayload spec.ann_payload))))
            spec.first_path)) = true.
Proof. vm_compute. reflexivity. Qed.


End CreateGet.

(* ===================================================================== *)
(** ** The scenarios of the specification, run on the model *)
(* ===================================================================== *)

Section Scenarios.

(** PUT /users/{id} {"age":32} answers 200; GET then shows age 32, and the
    name is still Ann. *)
Lemma scenario_update_age :
  let updated :=
    api.updateUser spec.srv_ann spec.ann_path
      (Ok (Some {[ "age" := go.float64 (S754_finite false 1 5) ]})) in
  fst updated = spec.ok_id spec.ann_id
  /\ fst (api.getUser (snd updated) spec.ann_path)
     = api.mkResponse 200 (api.JSON (json.Object
         (<["id" := json.Str "65f0a1b2c3d4e5f601234567"]>
           (<["name" := json.Str "Ann"]>
             (<["email" := json.Str "a@x.com"]>
               (<["age" := json.Int 32]>
                 (<["created_at" := json.Str "2023-11-14T22:13:20Z"]> ∅))))))).
Proof. cbv zeta. repeat apply conj; vm_compute; reflexivity. Qed.

(** DELETE /users/{id} answers 200; GET /users/{id} then answers 404. *)
Lemma scenario_delete_then_get :
  let deleted := api.deleteUser spec.srv_ann spec.ann_path in
  fst deleted = spec.ok_id spec.ann_id
  /\ mongo.users (snd deleted) = []
  /\ fst (api.getUser (snd deleted) spec.ann_path)
     = api.http_Error "not found" 404.
Proof. cbv zeta. repeat apply conj; vm_compute; reflexivity. Qed.

(** GET /users/not-a-valid-id answers 400. *)
Lemma scenario_invalid_id :
  fst (api.getUser spec.srv_ann "/users/not-a-valid-id")
  = api.http_Error "invalid id" 400.
Proof. reflexivity. Qed.

End Scenarios.

(* ===================================================================== *)
(** ** Handlers: requests that are refused, stores that do not answer *)
(* ===================================================================== *)

Section Refusals.

(** X1.  A request that is not well formed is answered 400 and nothing is
    asked of the database: a body that does not decode, for createUser and
    for updateUser, and an id that is not 24 hexadecimal digits, for
    updateUser and deleteUser.  updateUser looks at the id first: with both
    wrong it answers "invalid id". *)
Theorem malformed_request_400 (now : time.Time) (s : mongo.Server) (path e : string) :
  api.createUser now s (Err e) = (api.http_Error "invalid json body" 400, s)
  /\ (spec.is_hex_id (strings.TrimPrefix path "/users/") = false ->
        (forall body, api.updateUser s path body = (api.http_Error "invalid id" 400, s))
        /\ api.deleteUser s path = (api.http_Error "invalid id" 400, s))
  /\ (spec.is_hex_id (strings.TrimPrefix path "/users/") = true ->
        api.updateUser s path (Err e) = (api.http_Error "invalid json body" 400, s)).
Proof.
  split; [reflexivity|]. split.
  - intros H. apply ObjectIDFromHex_None in H.
    unfold api.updateUser, api.deleteUser. rewrite H. auto.
  - intros H. unfold api.updateUser.
    destruct (primitive.ObjectIDFromHex (strings.TrimPrefix path "/users/")) eqn:E;
      [reflexivity|].
    apply ObjectIDFromHex_None in E. congruence.
Qed.

Lemma malformed_request_400_witness :
  api.deleteUser spec.srv_ann "/users/12345" = (api.http_Error "invalid id" 400, spec.srv_ann)
  /\ api.updateUser spec.srv_ann spec.ann_path (Err "unexpected end of JSON input")
     = (api.http_Error "invalid json body" 400, spec.srv_ann).
Proof.
  destruct (malformed_request_400 spec.now0 spec.srv_ann "/users/12345" "")
    as (_ & H & _).
  destruct (malformed_request_400 spec.now0 spec.srv_ann spec.ann_path
              "unexpected end of JSON input") as (_ & _ & H').
  split; [exact (proj2 (H eq_refl))|exact (H' eq_refl)].
Defined.

Lemma MarshalUser_id_cases (u : api.User) :
  api.MarshalUser u !! "_id" = None
  \/ api.MarshalUser u !! "_id" = Some (bson.ObjectId (api.ID u)).
Proof. rewrite MarshalUser_id. destruct (primitive.oid_IsZero (api.ID u)); auto. Qed.



(** X3.  getUser and listUsers only read: whatever the request and the state
    of the store, the documents and the identifier generator are what they
    were, and at most one operation, a read, has been attempted. *)
Theorem reads_change_nothing (s : mongo.Server) (path : string) :
  (mongo.users (snd (api.getUser s path)) = mongo.users s
   /\ mongo.oid_counter (snd (api.getUser s path)) = mongo.oid_counter s
   /\ (mongo.oplog (snd (api.getUser s path)) = mongo.oplog s
       \/ exists oid, mongo.oplog (snd (api.getUser s path))
                      = mongo.oplog s ++ [mongo.OpFindOne oid]))
  /\ (mongo.users (snd (api.listUsers s)) = mongo.users s
      /\ mongo.oid_counter (snd (api.listUsers s)) = mongo.oid_counter s
      /\ mongo.oplog (snd (api.listUsers s)) = mongo.oplog s ++ [mongo.OpFind]).
Proof.
  split.
  - unfold api.getUser.
    destruct (primitive.ObjectIDFromHex (strings.TrimPrefix path "/users/")) as [oid|];
      [|simpl; auto].
    unfold mongo.FindOne. simpl.
    destruct (mongo.reachable s); simpl; [|eauto].
    destruct (find (mongo.has_id oid) (mongo.users s)); simpl; eauto.
  - unfold api.listUsers, mongo.Find. simpl.
    destruct (mongo.reachable s); simpl; auto.
Qed.

End Refusals.

(* ===================================================================== *)
(** ** Handlers: what a normalized user is made of *)
(* ===================================================================== *)

Section NormalizedUser.

(** X4.  listUsers and getUser normalize a document in the same way: the map
    built by the loop of listUsers is the map built by getUser, also for a
    document whose _id is not an ObjectID, where both give the id "". *)
Theorem list_and_get_normalize_alike (raw : gmap string go.any) :
  api.listUsers_item raw = api.getUser_resp raw.
Proof.
  unfold api.listUsers_item, api.getUser_resp.
  assert (E : match raw !! "_id" with
              | Some (go.ObjectID idv) =>
                  <["id" := go.string_ (primitive.Hex idv)]> (∅ : gmap string go.any)
              | _ => <["id" := go.string_ EmptyString]> ∅
              end
              = match raw !! "_id" with
                | Some (go.ObjectID idv) =>
                    <["id" := go.string_ (primitive.Hex idv)]>
                      {[ "id" := go.string_ EmptyString ]}
                | _ => {[ "id" := go.string_ EmptyString ]}
                end).
  { destruct (raw !! "_id") as [[]|];
      try (now rewrite insert_empty);
      now rewrite insert_singleton_eq, insert_empty. }
  cbv zeta. now rewrite E.
Qed.

Lemma dom_copy_name (raw m : gmap string go.any) :
  dom (api.copy_name raw m) ⊆ dom m ∪ {[ "name" ]}.
Proof.
  unfold api.copy_name. destruct (raw !! "name") as [[]|];
    try rewrite dom_insert_L; set_solver.
Qed.

Lemma dom_copy_email (raw m : gmap string go.any) :
  dom (api.copy_email raw m) ⊆ dom m ∪ {[ "email" ]}.
Proof.
  unfold api.copy_email. destruct (raw !! "email") as [[]|];
    try rewrite dom_insert_L; set_solver.
Qed.

Lemma dom_copy_age (raw m : gmap string go.any) :
  dom (api.copy_age raw m) ⊆ dom m ∪ {[ "age" ]}.
Proof.
  unfold api.copy_age. destruct (raw !! "age") as [[]|];
    try rewrite dom_insert_L; set_solver.
Qed.

Lemma dom_copy_created_at (raw m : gmap string go.any) :
  dom (api.copy_created_at raw m) ⊆ dom m ∪ {[ "created_at" ]}.
Proof.
  unfold api.copy_created_at. destruct (raw !! "created_at") as [cat|]; [|set_solver].
  destruct cat; try (rewrite dom_insert_L; set_solver).
  destruct (m0 !! "$date") as [[]|]; try (rewrite dom_insert_L; set_solver).
  destruct (time.Parse_RFC3339 s); try rewrite dom_insert_L; set_solver.
Qed.

Lemma copy_other (raw m : gmap string go.any) :
  api.copy_created_at raw (api.copy_age raw (api.copy_email raw (api.copy_name raw m)))
    !! "id" = m !! "id".
Proof.
  rewrite copy_created_at_other by discriminate.
  unfold api.copy_age, api.copy_email, api.copy_name.
  destruct (raw !! "age") as [[]|]; try rewrite lookup_insert_ne by discriminate;
    destruct (raw !! "email") as [[]|]; try rewrite lookup_insert_ne by discriminate;
    destruct (raw !! "name") as [[]|]; try rewrite lookup_insert_ne by discriminate;
    reflexivity.
Qed.

(** X5.  Whatever the stored document holds, the object that get and list
    answer with always has an id, a text, and never a key other than id,
    name, email, age and created_at: a field stored under another name is not
    served. *)
Theorem normalized_user_keys (raw : gmap string go.any) :
  dom (api.getUser_resp raw) ⊆ inv.user_keys
  /\ exists id, api.getUser_resp raw !! "id" = Some (go.string_ id).
Proof.
  split.
  - unfold api.getUser_resp. cbv zeta.
    set (resp := match raw !! "_id" with
                 | Some (go.ObjectID idv) => _
                 | _ => _
                 end).
    assert (Hr : dom resp ⊆ {[ "id" ]}).
    { unfold resp. destruct (raw !! "_id") as [[]|];
        try (rewrite dom_singleton_L; set_solver).
      rewrite dom_insert_L, dom_singleton_L. set_solver. }
    clearbody resp. unfold inv.user_keys. intros k Hk.
    apply dom_copy_created_at, elem_of_union in Hk.
    destruct Hk as [Hk|Hk]; [|set_solver].
    apply dom_copy_age, elem_of_union in Hk.
    destruct Hk as [Hk|Hk]; [|set_solver].
    apply dom_copy_email, elem_of_union in Hk.
    destruct Hk as [Hk|Hk]; [|set_solver].
    apply dom_copy_name, elem_of_union in Hk.
    destruct Hk as [Hk|Hk]; [|set_solver].
    apply Hr in Hk. set_solver.
  - unfold api.getUser_resp. cbv zeta. rewrite copy_other.
    destruct (raw !! "_id") as [[]|];
      try (rewrite lookup_singleton_eq; eauto).
    rewrite lookup_insert_eq. eauto.
Qed.



(** The witnesses of two properties shown above: an age stored as a double
    comes out as an int, and a collection with one user is listed as an array
    of one object. *)
Lemma age_plain_integer_witness :
  api.getUser_resp (<["age" := go.float64 (S754_finite false 63 (-1))]> ∅) !! "age"
  = Some (go.int 31).
Proof.
  assert (H0 : (<["age" := go.float64 (S754_finite false 63 (-1))]> ∅
                : gmap string go.any) !! "age"
               = Some (go.float64 (S754_finite false 63 (-1))))
    by apply lookup_insert_eq.
  destruct (age_plain_integer _ _ 31 H0) as (H & _).
  - right. right. exists (S754_finite false 63 (-1)). split; reflexivity.
  - exact H.
Defined.

Lemma listUsers_array_witness :
  fst (api.listUsers spec.srv_ann)
  = api.mkResponse 200
      (api.JSON (json.Array
         [json.Object (json.encode <$> api.listUsers_item (bson.Unmarshal spec.ann_doc))])).
Proof.
  apply (listUsers_array spec.srv_ann); [reflexivity|discriminate|].
  vm_compute. reflexivity.
Defined.

End NormalizedUser.

(* ===================================================================== *)
(** ** Handlers: what the writes do to the collection *)
(* ===================================================================== *)

Section Writes.

Lemma has_id_oid_of (o : primitive.ObjectID) (d : gmap string bson.Value) :
  mongo.has_id o d = true <-> inv.oid_of d = Some o.
Proof.
  unfold mongo.has_id, inv.oid_of. destruct (d !! "_id") as [[]|];
    try (split; discriminate).
  rewrite bool_decide_eq_true. split; congruence.
Qed.

Lemma absent_not_elem (o : primitive.ObjectID) (s : mongo.Server) :
  spec.absent o s <-> o ∉ omap inv.oid_of (mongo.users s).
Proof.
  unfold spec.absent. rewrite Forall_forall, list_elem_of_omap. split.
  - intros H (d & Hd & Ho). apply has_id_oid_of in Ho.
    specialize (H d Hd). congruence.
  - intros H d Hd. destruct (mongo.has_id o d) eqn:E; [|reflexivity].
    exfalso. apply H. exists d. split; [exact Hd|]. now apply has_id_oid_of.
Qed.

Lemma existsb_false_absent (o : primitive.ObjectID) (s : mongo.Server) :
  existsb (mongo.has_id o) (mongo.users s) = false -> spec.absent o s.
Proof.
  unfold spec.absent. induction (mongo.users s) as [|d l IH]; simpl; [constructor|].
  intros H. apply orb_false_elim in H. destruct H. constructor; auto.
Qed.

(** What InsertOne does: it adds one document, under an identifier that no
    stored document has, or it fails and adds nothing. *)
Lemma InsertOne_cases (doc : gmap string bson.Value) (s : mongo.Server) r s' :
  mongo.InsertOne doc s = (r, s') ->
  (exists o d, r = Ok (go.ObjectID o) /\ spec.absent o s
               /\ mongo.users s' = mongo.users s ++ [d]
               /\ inv.oid_of d = Some o
               /\ (forall k, k <> "_id" -> d !! k = doc !! k)
               /\ (doc !! "_id" = None \/ doc !! "_id" = Some (bson.ObjectId o)))
  \/ (exists e, r = Err e /\ mongo.users s' = mongo.users s).
Proof.
  unfold mongo.InsertOne. destruct (doc !! "_id") as [v|] eqn:Hid.
  - destruct v; try (intros [= <- <-]; right; eauto).
    simpl. destruct (mongo.reachable s); simpl; [|intros [= <- <-]; right; eauto].
    destruct (existsb (mongo.has_id o) (mongo.users s)) eqn:He;
      intros [= <- <-]; [right; eauto|].
    left. exists o, doc. repeat split; auto.
    + now apply existsb_false_absent.
    + unfold inv.oid_of. now rewrite Hid.
  - simpl. destruct (mongo.reachable s); simpl; [|intros [= <- <-]; right; eauto].
    change (mongo.NewObjectID (mongo.attempt (mongo.OpInsertOne doc) s))
      with (mongo.NewObjectID s).
    destruct (existsb (mongo.has_id (mongo.NewObjectID s)) (mongo.users s)) eqn:He;
      intros [= <- <-]; [right; eauto|].
    left. exists (mongo.NewObjectID s), (<["_id" := bson.ObjectId (mongo.NewObjectID s)]> doc).
    repeat split; auto.
    + now apply existsb_false_absent.
    + unfold inv.oid_of. now rewrite lookup_insert_eq.
    + intros k Hk. now rewrite lookup_insert_ne.
Qed.

Lemma createUser_effect (now : time.Time) (s : mongo.Server)
  (body : result api.User) (resp : api.Response) (s' : mongo.Server) :
  api.createUser now s body = (resp, s') ->
  (api.status resp = 201
   /\ exists o d,
        api.body resp = api.JSON (json.Object {[ "id" := json.Str (primitive.Hex o) ]})
        /\ mongo.users s' = mongo.users s ++ [d]
        /\ inv.oid_of d = Some o
        /\ spec.absent o s)
  \/ ((api.status resp = 400 \/ api.status resp = 500)
      /\ mongo.users s' = mongo.users s).
Proof.
  unfold api.createUser. destruct body as [u|e]; [|intros [= <- <-]; right; auto].
  set (u1 := if time.IsZero (api.CreatedAt u) then _ else u).
  destruct (mongo.InsertOne (api.MarshalUser u1) s) as [r s1] eqn:Hi.
  destruct (InsertOne_cases _ _ _ _ Hi)
    as [(o & d & -> & Habs & Hus & Hoid & _)|(e & -> & Hus)];
    intros [= <- <-].
  - left. rewrite writeJSON_id. split; [reflexivity|]. exists o, d. auto.
  - right. auto.
Qed.

(** X7.  createUser adds at most one document.  When it answers 201, the
    collection is the old one followed by one new document, whose _id is the
    ObjectID whose hexadecimal form is in the answer, and no document had that
    identifier before; otherwise it answers 400 or 500 and the collection is
    what it was. *)
Theorem createUser_adds_one (now : time.Time) (s : mongo.Server)
  (body : result api.User) (resp : api.Response) (s' : mongo.Server) :
  api.createUser now s body = (resp, s') ->
  (api.status resp = 201
   /\ exists o d,
        api.body resp = api.JSON (json.Object {[ "id" := json.Str (primitive.Hex o) ]})
        /\ mongo.users s' = mongo.users s ++ [d]
        /\ inv.oid_of d = Some o
        /\ spec.absent o s)
  \/ ((api.status resp = 400 \/ api.status resp = 500)
      /\ mongo.users s' = mongo.users s).
Proof. apply createUser_effect. Qed.

Lemma createUser_adds_one_witness :
  exists o d,
    api.body (fst (api.createUser spec.now0 spec.srv_ann
                     (Ok (api.decodePayload spec.ann_payload))))
    = api.JSON (json.Object {[ "id" := json.Str (primitive.Hex o) ]})
    /\ mongo.users (snd (api.createUser spec.now0 spec.srv_ann
                           (Ok (api.decodePayload spec.ann_payload))))
       = [spec.ann_doc; d].
Proof.
  destruct (createUser_adds_one spec.now0 spec.srv_ann
              (Ok (api.decodePayload spec.ann_payload)) _ _ (surjective_pairing _))
    as [(_ & o & d & Hb & Hu & _)|([H|H] & _)].
  - exists o, d. split; [exact Hb|exact Hu].
  - discriminate H.
  - discriminate H.
Defined.



End Writes.

(* ===================================================================== *)
(** ** Handlers: identifiers stay unique; delete, then get; update, then find *)
(* ===================================================================== *)

Section Collection.

Lemma omap_update_first (oid : primitive.ObjectID) (d1 : gmap string bson.Value)
  (l : list (gmap string bson.Value)) :
  inv.oid_of d1 = Some oid ->
  omap inv.oid_of (mongo.update_first (mongo.has_id oid) (fun _ => d1) l)
  = omap inv.oid_of l.
Proof.
  intros H1. induction l as [|a l IH]; [reflexivity|].
  cbn [mongo.update_first]. destruct (mongo.has_id oid a) eqn:E.
  - apply has_id_oid_of in E.
    change (omap inv.oid_of (d1 :: l))
      with (match inv.oid_of d1 with
            | Some o => o :: omap inv.oid_of l
            | None => omap inv.oid_of l
            end).
    change (omap inv.oid_of (a :: l))
      with (match inv.oid_of a with
            | Some o => o :: omap inv.oid_of l
            | None => omap inv.oid_of l
            end).
    now rewrite H1, E.
  - change (omap inv.oid_of (a :: ?x))
      with (match inv.oid_of a with
            | Some o => o :: omap inv.oid_of x
            | None => omap inv.oid_of x
            end).
    rewrite IH. reflexivity.
Qed.

Lemma elem_delete_first p (l : list (gmap string bson.Value)) d :
  d ∈ mongo.delete_first p l -> d ∈ l.
Proof.
  induction l as [|a l IH]; simpl; [auto|].
  destruct (p a); [apply list_elem_of_further|].
  intros H. apply elem_of_cons in H. destruct H as [->|H].
  - apply list_elem_of_here.
  - apply list_elem_of_further. auto.
Qed.

Lemma NoDup_delete_first p (l : list (gmap string bson.Value)) :
  NoDup (omap inv.oid_of l) -> NoDup (omap inv.oid_of (mongo.delete_first p l)).
Proof.
  induction l as [|a l IH]; simpl; [auto|].
  destruct (p a); simpl.
  - destruct (inv.oid_of a); [|auto]. intros H. now apply NoDup_cons in H.
  - destruct (inv.oid_of a) as [o|]; [|auto].
    intros H. apply NoDup_cons in H. destruct H as [Hn Hd].
    apply NoDup_cons. split; [|auto].
    intros Hin. apply Hn. apply list_elem_of_omap in Hin.
    destruct Hin as (d & Hd' & Ho). apply list_elem_of_omap.
    exists d. split; [now apply elem_delete_first in Hd'|exact Ho].
Qed.

Lemma delete_first_absent (oid : primitive.ObjectID)
  (l : list (gmap string bson.Value)) :
  NoDup (omap inv.oid_of l) ->
  Forall (fun d => mongo.has_id oid d = false)
    (mongo.delete_first (mongo.has_id oid) l).
Proof.
  induction l as [|a l IH]; simpl; [constructor|].
  destruct (mongo.has_id oid a) eqn:E.
  - apply has_id_oid_of in E. rewrite E. intros H.
    apply NoDup_cons in H. destruct H as [Hn _].
    apply Forall_forall. intros d Hd.
    destruct (mongo.has_id oid d) eqn:E'; [|reflexivity].
    exfalso. apply Hn. apply list_elem_of_omap. exists d.
    split; [exact Hd|now apply has_id_oid_of].
  - intros H. constructor; [exact E|]. apply IH.
    destruct (inv.oid_of a); [now apply NoDup_cons in H|exact H].
Qed.

Lemma delete_first_others p (l : list (gmap string bson.Value)) d :
  p d = false -> (d ∈ mongo.delete_first p l <-> d ∈ l).
Proof.
  intros Hd. split; [apply elem_delete_first|].
  induction l as [|a l IH]; simpl; [auto|].
  intros H. apply elem_of_cons in H. destruct H as [->|H].
  - rewrite Hd. apply list_elem_of_here.
  - destruct (p a); [exact H|]. apply list_elem_of_further. auto.
Qed.

(** X9.  No handler makes two stored documents share an ObjectID: when the
    identifiers of the collection are distinct before a request, they are
    distinct after it, for createUser, updateUser and deleteUser, whatever
    the request. *)
Theorem handlers_keep_ids_unique (now : time.Time) (s : mongo.Server)
  (path : string) (user : result api.User)
  (body : result (option (gmap string go.any))) :
  inv.unique_ids s ->
  inv.unique_ids (snd (api.createUser now s user))
  /\ inv.unique_ids (snd (api.updateUser s path body))
  /\ inv.unique_ids (snd (api.deleteUser s path)).
Proof.
  unfold inv.unique_ids. intros Hu. repeat apply conj.
  - destruct (api.createUser now s user) as [resp s'] eqn:Hc.
    destruct (createUser_effect _ _ _ _ _ Hc)
      as [(_ & o & d & _ & Hus & Hoid & Habs)|(_ & Hus)]; simpl; rewrite Hus; [|exact Hu].
    rewrite omap_app. simpl. rewrite Hoid. apply NoDup_app.
    split; [exact Hu|]. split; [|apply NoDup_singleton].
    intros x Hx Hx'. apply list_elem_of_singleton in Hx'. subst x.
    now apply absent_not_elem in Habs.
  - unfold api.updateUser.
    destruct (primitive.ObjectIDFromHex (strings.TrimPrefix path "/users/")) as [oid|];
      [|exact Hu].
    destruct body as [body|e]; [|exact Hu].
    destruct (mongo.UpdateByID oid (mongo.set_ (delete "id" <$> body)) s)
      as [r s1] eqn:Hup.
    assert (Hs : NoDup (omap inv.oid_of (mongo.users s1))).
    { destruct (UpdateByID_cases _ _ _ _ _ Hup)
        as [_ [Hsame|(m & d0 & d1 & _ & Hfind & Happly & Hus)]].
      - now rewrite Hsame.
      - rewrite Hus, omap_update_first; [exact Hu|].
        apply has_id_find, has_id_oid_of in Hfind.
        destruct (apply_set_frame _ _ _ Happly) as [Hid _].
        unfold inv.oid_of in *. now rewrite Hid. }
    now destruct r.
  - unfold api.deleteUser.
    destruct (primitive.ObjectIDFromHex (strings.TrimPrefix path "/users/")) as [oid|];
      [|exact Hu].
    unfold mongo.DeleteOne. simpl.
    destruct (mongo.reachable s); simpl; [|exact Hu].
    destruct (find (mongo.has_id oid) (mongo.users s)); simpl; [|exact Hu].
    now apply NoDup_delete_first.
Qed.

Lemma handlers_keep_ids_unique_witness :
  inv.unique_ids
    (snd (api.createUser spec.now0 spec.srv_ann (Ok (api.decodePayload spec.ann_payload)))).
Proof.
  refine (proj1 (handlers_keep_ids_unique spec.now0 spec.srv_ann spec.ann_path
                   (Ok (api.decodePayload spec.ann_payload)) (Ok None) _)).
  unfold inv.unique_ids. simpl. apply NoDup_singleton.
Defined.

(** X10.  Delete, then get: when the identifiers of the collection are
    distinct and the store answers, after DELETE /users/{id} no stored
    document has that id, GET /users/{id} answers 404, and every document with
    another id is still there. *)
Theorem delete_then_get_404 (s : mongo.Server) (path : string)
  (oid : primitive.ObjectID) :
  inv.unique_ids s ->
  mongo.reachable s = true ->
  primitive.ObjectIDFromHex (strings.TrimPrefix path "/users/") = Some oid ->
  fst (api.deleteUser s path) = spec.ok_id oid
  /\ spec.absent oid (snd (api.deleteUser s path))
  /\ fst (api.getUser (snd (api.deleteUser s path)) path) = api.http_Error "not found" 404
  /\ forall d, mongo.has_id oid d = false ->
       (d ∈ mongo.users (snd (api.deleteUser s path)) <-> d ∈ mongo.users s).
Proof.
  intros Hu Hr Hid. unfold api.deleteUser, mongo.DeleteOne. rewrite Hid. simpl.
  rewrite Hr. simpl.
  assert (Habs : forall l, l = mongo.delete_first (mongo.has_id oid) (mongo.users s)
                           \/ (l = mongo.users s
                               /\ find (mongo.has_id oid) (mongo.users s) = None) ->
                 Forall (fun d => mongo.has_id oid d = false) l).
  { intros l [->|[-> Hf]]; [now apply delete_first_absent|].
    apply Forall_forall. intros d Hd.
    destruct (mongo.has_id oid d) eqn:E; [|reflexivity].
    apply list_elem_of_In in Hd.
    apply (find_none _ _ Hf) in Hd. congruence. }
  destruct (find (mongo.has_id oid) (mongo.users s)) eqn:Hf; simpl.
  - rewrite writeJSON_id. split; [reflexivity|].
    assert (Ha : Forall (fun d => mongo.has_id oid d = false)
                   (mongo.delete_first (mongo.has_id oid) (mongo.users s)))
      by (apply Habs; auto).
    split; [exact Ha|]. split.
    + unfold api.getUser, mongo.FindOne. rewrite Hid. simpl. rewrite Hr. simpl.
      change (find (mongo.has_id oid)
                (mongo.delete_first (mongo.has_id oid) (mongo.users s)))
        with (find (mongo.has_id oid)
                (mongo.users (mongo.mkServer
                   (mongo.delete_first (mongo.has_id oid) (mongo.users s)) true 0 []))).
      rewrite find_absent by exact Ha. reflexivity.
    + intros d Hd. now apply delete_first_others.
  - rewrite writeJSON_id. split; [reflexivity|].
    assert (Ha : Forall (fun d => mongo.has_id oid d = false) (mongo.users s))
      by (apply Habs; auto).
    split; [exact Ha|]. split.
    + unfold api.getUser, mongo.FindOne. rewrite Hid. simpl. rewrite Hr. simpl.
      now rewrite Hf.
    + tauto.
Qed.

Lemma delete_then_get_404_witness :
  fst (api.getUser (snd (api.deleteUser spec.srv_ann spec.ann_path)) spec.ann_path)
  = api.http_Error "not found" 404.
Proof.
  refine (proj1 (proj2 (proj2 (delete_then_get_404 spec.srv_ann spec.ann_path
                                 spec.ann_id _ eq_refl eq_refl)))).
  unfold inv.unique_ids. simpl. apply NoDup_singleton.
Defined.

End Collection.

(* ===================================================================== *)
(** ** Handlers: what an update writes *)
(* ===================================================================== *)

Section UpdateSets.

Lemma fields_no_dot (k : string) : inv.has_dot k = false -> mongo.fields k = [k].
Proof.
  induction k as [|c k IH]; simpl; [reflexivity|].
  intros H. apply orb_false_elim in H. destruct H as [Hc Hk].
  rewrite Hc, (IH Hk). reflexivity.
Qed.

Lemma plain_inv (k : string) :
  inv.plain k = true ->
  mongo.fields k = [k] /\ mongo.field_ok k = true /\ k <> "_id".
Proof.
  unfold inv.plain. intros H.
  apply andb_prop in H. destruct H as [H H3].
  apply andb_prop in H. destruct H as [H1 H2].
  apply negb_true_iff in H1. apply negb_true_iff, bool_decide_eq_false in H3.
  split; [now apply fields_no_dot|]. split; assumption.
Qed.

Lemma set_field_plain k v (d : gmap string bson.Value) :
  inv.plain k = true -> mongo.set_field k v d = Some (<[k := v]> d).
Proof.
  intros H. destruct (plain_inv k H) as (Hf & _ & Hne).
  unfold mongo.set_field. rewrite Hf. now rewrite bool_decide_eq_false_2.
Qed.

(** For keys that are plain field names, $set is a merge in which the
    operand wins. *)
Lemma apply_set_plain (m : gmap string go.any) (d : gmap string bson.Value) :
  (forall k, is_Some (m !! k) -> inv.plain k = true) ->
  mongo.apply_set m d = Some ((bson.MarshalValue <$> m) ∪ d).
Proof.
  unfold mongo.apply_set.
  apply (map_fold_weak_ind
    (fun (r : option (gmap string bson.Value)) (m : gmap string go.any) =>
       (forall k, is_Some (m !! k) -> inv.plain k = true) ->
       r = Some ((bson.MarshalValue <$> m) ∪ d))).
  - intros _. now rewrite fmap_empty, (left_id_L ∅ (∪)).
  - intros k v m0 r Hk IH Hp. rewrite IH.
    + rewrite set_field_plain by (apply Hp; rewrite lookup_insert_eq; eauto).
      now rewrite fmap_insert, insert_union_l.
    + intros k' Hk'. apply Hp. destruct (decide (k = k')) as [->|Hne].
      * rewrite lookup_insert_eq. eauto.
      * now rewrite lookup_insert_ne.
Qed.

Lemma operand_ok_plain (m : gmap string go.any) :
  (forall k, is_Some (m !! k) -> inv.plain k = true) ->
  mongo.operand_ok m = true.
Proof.
  intros Hp.
  assert (Hpaths : forall p, In p (mongo.paths m) ->
            exists k, p = [k] /\ mongo.field_ok k = true).
  { intros p Hin. unfold mongo.paths in Hin.
    apply list_elem_of_In, list_elem_of_fmap in Hin.
    destruct Hin as ([k v] & -> & Hkv). apply elem_of_map_to_list in Hkv.
    destruct (plain_inv k) as (Hf & Hok & _); [apply Hp; eauto|].
    exists k. simpl. auto. }
  unfold mongo.operand_ok. apply andb_true_intro. split.
  - apply forallb_forall. intros p Hin.
    destruct (Hpaths p Hin) as (k & -> & Hok). simpl. now rewrite Hok.
  - unfold mongo.no_conflict. apply forallb_forall. intros p Hin.
    apply forallb_forall. intros q Hin'.
    destruct (Hpaths p Hin) as (k & -> & _).
    destruct (Hpaths q Hin') as (k' & -> & _).
    destruct (decide (k = k')) as [->|Hne].
    + now rewrite bool_decide_eq_true_2.
    + rewrite (bool_decide_eq_false_2 ([k] = [k'])) by congruence.
      rewrite bool_decide_eq_false_2; [reflexivity|].
      intros [l Hl]. simpl in Hl. congruence.
Qed.

Lemma find_update_first p (d0 d1 : gmap string bson.Value) l :
  find p l = Some d0 -> p d1 = true ->
  find p (mongo.update_first p (fun _ => d1) l) = Some d1.
Proof.
  intros Hf H1. induction l as [|a l IH]; simpl in *; [discriminate|].
  destruct (p a) eqn:E; simpl.
  - now rewrite H1.
  - rewrite E. auto.
Qed.

(** X11.  Update, then find: on a store that answers, when the keys of the
    body other than id are plain field names (no dot, no leading dollar sign,
    not _id), PUT /users/{id} on a stored document answers 200 with body {id},
    and the document stored under that id then holds, for every key of the
    body other than id, the value of the body as the codec writes it, and for
    every other field the value it had. *)
Theorem update_then_find (s : mongo.Server) (path : string)
  (oid : primitive.ObjectID) (m : gmap string go.any)
  (d0 : gmap string bson.Value) :
  primitive.ObjectIDFromHex (strings.TrimPrefix path "/users/") = Some oid ->
  mongo.reachable s = true ->
  find (mongo.has_id oid) (mongo.users s) = Some d0 ->
  (forall k, is_Some (delete "id" m !! k) -> inv.plain k = true) ->
  fst (api.updateUser s path (Ok (Some m))) = spec.ok_id oid
  /\ exists d1,
       find (mongo.has_id oid) (mongo.users (snd (api.updateUser s path (Ok (Some m)))))
       = Some d1
       /\ (forall k v, k <> "id" -> m !! k = Some v ->
             d1 !! k = Some (bson.MarshalValue v))
       /\ (forall k, k = "id" \/ m !! k = None -> d1 !! k = d0 !! k).
Proof.
  intros Hid Hr Hf Hp.
  set (m' := delete "id" m) in *.
  set (d1 := (bson.MarshalValue <$> m') ∪ d0).
  assert (Hh : mongo.has_id oid d1 = true).
  { apply has_id_oid_of. apply has_id_find, has_id_oid_of in Hf.
    unfold inv.oid_of in *. unfold d1.
    assert (Hn : (bson.MarshalValue <$> m') !! "_id" = None).
    { rewrite lookup_fmap. destruct (m' !! "_id") as [v|] eqn:E; [|reflexivity].
      destruct (plain_inv "_id") as (_ & _ & Hne); [apply Hp; eauto|]. congruence. }
    rewrite lookup_union_r by exact Hn. exact Hf. }
  assert (Hu : api.updateUser s path (Ok (Some m))
               = (spec.ok_id oid,
                  mongo.set_users
                    (mongo.update_first (mongo.has_id oid) (fun _ => d1) (mongo.users s))
                    (mongo.attempt (mongo.OpUpdateByID oid (mongo.set_ (Some m'))) s))).
  { unfold api.updateUser, mongo.UpdateByID. rewrite Hid. simpl. fold m'.
    rewrite Hr, (operand_ok_plain _ Hp). simpl. rewrite Hf.
    rewrite (apply_set_plain _ _ Hp). fold d1. now rewrite writeJSON_id. }
  rewrite Hu. split; [reflexivity|]. exists d1. simpl.
  split; [now apply (find_update_first _ d0)|]. split.
  - intros k v Hk Hm. unfold d1.
    assert (Hm' : m' !! k = Some v) by (unfold m'; now rewrite lookup_delete_ne).
    apply lookup_union_Some_l. now rewrite lookup_fmap, Hm'.
  - intros k Hk. unfold d1. apply lookup_union_r. rewrite lookup_fmap.
    destruct Hk as [->|Hk].
    + unfold m'. now rewrite lookup_delete_eq.
    + unfold m'. destruct (decide (k = "id")) as [->|Hne].
      * now rewrite lookup_delete_eq.
      * now rewrite lookup_delete_ne, Hk.
Qed.

Lemma update_then_find_witness :
  exists d1,
    find (mongo.has_id spec.ann_id)
      (mongo.users (snd (api.updateUser spec.srv_ann spec.ann_path
                           (Ok (Some (<["name" := go.string_ "Bob"]> ∅))))))
    = Some d1
    /\ d1 !! "name" = Some (bson.String_ "Bob")
    /\ d1 !! "email" = spec.ann_doc !! "email".
Proof.
  assert (H1 : primitive.ObjectIDFromHex (strings.TrimPrefix spec.ann_path "/users/")
               = Some spec.ann_id) by (vm_compute; reflexivity).
  assert (H2 : find (mongo.has_id spec.ann_id) (mongo.users spec.srv_ann)
               = Some spec.ann_doc) by (vm_compute; reflexivity).
  destruct (update_then_find spec.srv_ann spec.ann_path spec.ann_id
              (<["name" := go.string_ "Bob"]> ∅) spec.ann_doc H1 eq_refl H2)
    as (_ & d1 & Hf & Hset & Hkeep).
  - intros k Hk. rewrite lookup_delete_ne in Hk.
    + destruct (decide (k = "name")) as [->|Hne]; [vm_compute; reflexivity|].
      rewrite lookup_insert_ne, lookup_empty in Hk by congruence. now destruct Hk.
    + intros <-. rewrite lookup_delete_eq in Hk. now destruct Hk.
  - exists d1. split; [exact Hf|]. split.
    + apply (Hset "name" (go.string_ "Bob")); [discriminate|apply lookup_insert_eq].
    + apply (Hkeep "email").
      right. rewrite lookup_insert_ne by discriminate. apply lookup_empty.
Defined.

End UpdateSets.

(* ===================================================================== *)
(** ** Package db: the cached connection is open; failure and reconnection *)
(* ===================================================================== *)

Section ConnectionState.

Lemma mongo_Connect_Ok net uri cs c cs' :
  mongo.Connect net uri cs = (Ok c, cs') ->
  c = length cs /\ cs' = cs ++ [(uri, true)].
Proof.
  unfold mongo.Connect. destruct (mongo.uri_valid net uri); intros [= <- <-]; auto.
Qed.

Lemma lookup_snoc {A : Type} (l : list A) (x : A) : (l ++ [x]) !! length l = Some x.
Proof. now rewrite lookup_app_r, Nat.sub_diag by lia. Qed.

Lemma Connect_keeps_singleton_open net uri dbName st :
  inv.singleton_open st -> inv.singleton_open (snd (db.Connect net uri dbName st)).
Proof.
  intros Hst. unfold db.Connect.
  destruct (db.clientInstance st) as [mc0|] eqn:E; [exact Hst|].
  destruct (mongo.Connect net uri (db.clients st)) as [[c|e] cs] eqn:Hc;
    [|intros mc; discriminate].
  destruct (mongo_Connect_Ok _ _ _ _ _ Hc) as [-> ->].
  destruct (mongo.Ping net (length (db.clients st)) (db.clients st ++ [(uri, true)]));
    [intros mc; discriminate|].
  intros mc [= <-]. exists (length (db.clients st)), uri.
  split; [reflexivity|]. apply lookup_snoc.
Qed.

Lemma Disconnect_keeps_singleton_open mc st :
  inv.singleton_open st -> inv.singleton_open (snd (db.Disconnect mc st)).
Proof.
  intros Hst. unfold db.Disconnect. destruct (db.Client mc) as [c|]; [|exact Hst].
  unfold mongo.Disconnect. destruct (db.clients st !! c) as [[uri [|]]|];
    simpl; try (intros mc'; discriminate); now destruct st.
Qed.

Lemma Connect_Ok_is_open net uri dbName st mc st' :
  inv.singleton_open st ->
  db.Connect net uri dbName st = (Ok mc, st') -> inv.is_open mc st'.
Proof.
  intros Hst Hc.
  pose proof (Connect_keeps_singleton_open net uri dbName st Hst) as H.
  rewrite Hc in H. apply H. exact (Connect_Ok_caches _ _ _ _ _ _ Hc).
Qed.

(** X12.  The instance cached in clientInstance always has an open
    connection: this holds when the process starts, Connect and Disconnect
    keep it, whatever their arguments and results, and so every MongoClient
    that Connect returns has an open connection. *)
Theorem cached_connection_is_open net uri dbName (mc0 : db.MongoClient) st :
  inv.singleton_open db.init
  /\ (inv.singleton_open st ->
        inv.singleton_open (snd (db.Connect net uri dbName st))
        /\ inv.singleton_open (snd (db.Disconnect mc0 st))
        /\ forall mc st', db.Connect net uri dbName st = (Ok mc, st') ->
             inv.is_open mc st').
Proof.
  split; [intros mc; discriminate|]. intros Hst. repeat apply conj.
  - now apply Connect_keeps_singleton_open.
  - now apply Disconnect_keeps_singleton_open.
  - intros mc st'. now apply Connect_Ok_is_open.
Qed.

Lemma cached_connection_is_open_witness :
  inv.is_open (db.mkMongoClient (Some 0%nat) (Some (0%nat, "test_database")))
    (snd (db.Connect spec.net_up "mongodb://localhost:27017" "test_database" db.init)).
Proof.
  destruct (cached_connection_is_open spec.net_up "mongodb://localhost:27017"
              "test_database" (db.mkMongoClient None None) db.init) as [H0 H].
  destruct (H H0) as (_ & _ & Hopen).
  exact (Hopen _ _ eq_refl).
Defined.



(** X14.  Connect, Disconnect, Connect: the Disconnect of the instance that
    Connect returned succeeds and empties the singleton, and a later Connect
    makes a new client, so that the instance it returns is another one, with
    an open connection, while the first instance stays closed. *)
Theorem reconnect_after_Disconnect net uri dbName st mc st1 :
  inv.singleton_open st ->
  db.Connect net uri dbName st = (Ok mc, st1) ->
  exists st2,
    db.Disconnect mc st1 = (None, st2)
    /\ db.clientInstance st2 = None
    /\ ~ inv.is_open mc st2
    /\ forall net' uri' dbName',
         mongo.uri_valid net' uri' = true -> mongo.server_up net' uri' = true ->
         exists mc' st3,
           db.Connect net' uri' dbName' st2 = (Ok mc', st3)
           /\ mc' <> mc
           /\ inv.is_open mc' st3
           /\ ~ inv.is_open mc st3.
Proof.
  intros Hst Hc.
  destruct (Connect_Ok_is_open _ _ _ _ _ _ Hst Hc) as (c & uri0 & Hcl & Hlk).
  pose proof (lookup_lt_Some _ _ _ Hlk) as Hlt.
  eexists. split; [apply (Disconnect_open _ _ _ _ Hcl Hlk)|].
  split; [reflexivity|]. split.
  { intros (c' & u' & Hc' & Hl'). simpl in Hl'.
    rewrite Hcl in Hc'. injection Hc' as <-.
    rewrite list_lookup_insert_eq in Hl' by exact Hlt. discriminate. }
  intros net' uri' dbName' Hv Hup. do 2 eexists.
  unfold db.Connect, mongo.Connect. cbn [db.clientInstance db.clients db.log].
  rewrite Hv. unfold mongo.Ping. rewrite lookup_snoc, Hup.
  split; [reflexivity|]. rewrite length_insert. repeat split.
  - intros E. rewrite <- E in Hcl. simpl in Hcl. injection Hcl as Hcl. lia.
  - exists (length (db.clients st1)), uri'. split; [reflexivity|]. simpl.
    rewrite <- (length_insert (db.clients st1) c (uri0, false)). apply lookup_snoc.
  - intros (c' & u' & Hc' & Hl'). simpl in Hl'.
    rewrite Hcl in Hc'. injection Hc' as <-.
    rewrite lookup_app_l in Hl' by (rewrite length_insert; exact Hlt).
    rewrite list_lookup_insert_eq in Hl' by exact Hlt. discriminate.
Qed.

Lemma reconnect_after_Disconnect_witness :
  exists st2,
    db.Disconnect (db.mkMongoClient (Some 0%nat) (Some (0%nat, "test_database")))
      (snd (db.Connect spec.net_up "mongodb://localhost:27017" "test_database" db.init))
    = (None, st2)
    /\ db.clientInstance st2 = None.
Proof.
  destruct (reconnect_after_Disconnect spec.net_up "mongodb://localhost:27017"
              "test_database" db.init _ _ (fun mc (H : None = Some mc) =>
                 match H with end) eq_refl)
    as (st2 & Hd & Hn & _).
  exists st2. split; [exact Hd|exact Hn].
Defined.

End ConnectionState.

(* ===================================================================== *)
(** ** Package main: ping and sample data *)
(* ===================================================================== *)

Section Startup.

(** X15.  pingDatabase on the instance that a first Connect has just
    returned, with the network as it was, succeeds; once that instance has
    been disconnected it returns "failed to ping MongoDB: client is
    disconnected"; and on a MongoClient whose Client is nil it panics. *)
Theorem ping_follows_connection net uri dbName st mc st1 :
  db.clientInstance st = None ->
  db.Connect net uri dbName st = (Ok mc, st1) ->
  main.pingDatabase net mc st1 = (main.Returned None, [main.PrintedPinged])
  /\ main.pingDatabase net mc (snd (db.Disconnect mc st1))
     = (main.Returned (Some "failed to ping MongoDB: client is disconnected"), [])
  /\ main.pingDatabase net (db.mkMongoClient None (db.DB mc)) st1 = (main.Panicked, []).
Proof.
  intros Hnil. unfold db.Connect, mongo.Connect. rewrite Hnil.
  destruct (mongo.uri_valid net uri); [|discriminate].
  destruct (mongo.Ping net (length (db.clients st)) (db.clients st ++ [(uri, true)]))
    as [e|] eqn:Hp; [discriminate|].
  intros [= <- <-]. unfold main.pingDatabase, db.Disconnect, mongo.Disconnect.
  cbn [db.Client db.clients]. rewrite Hp, lookup_snoc. cbn [snd db.clients].
  repeat split. unfold mongo.Ping.
  rewrite list_lookup_insert_eq by (rewrite length_app; simpl; lia).
  reflexivity.
Qed.

Lemma ping_follows_connection_witness :
  main.pingDatabase spec.net_up
    (db.mkMongoClient (Some 0%nat) (Some (0%nat, "test_database")))
    (snd (db.Connect spec.net_up "mongodb://localhost:27017" "test_database" db.init))
  = (main.Returned None, [main.PrintedPinged]).
Proof.
  exact (proj1 (ping_follows_connection spec.net_up "mongodb://localhost:27017"
                  "test_database" db.init _ _ eq_refl eq_refl)).
Defined.

Lemma sampleDoc_marshalled :
  bson.MarshalValue <$> main.sampleDoc
  = <["name" := bson.String_ "John Doe"]>
      (<["email" := bson.String_ "john.doe@example.com"]>
        (<["age" := bson.Int32 30]>
          (<["created_at" := bson.DateTime 1672531200000]> ∅))).
Proof.
  unfold main.sampleDoc. rewrite !fmap_insert, fmap_empty. reflexivity.
Qed.



End Startup.

(* ===================================================================== *)
(** ** Package api: the router *)
(* ===================================================================== *)

Section Router.

Lemma route_users (method : string) : http.route method "/users" = http.ToUsers.
Proof.
  unfold http.route. destruct (bool_decide (method = http.MethodConnect)); reflexivity.
Qed.

Lemma match_subtree (p : string) :
  strings.HasPrefix p "/users/" = true -> http.match_ p = http.ToUsersSubtree.
Proof.
  intros H. unfold http.match_. case_bool_decide as E; [|now rewrite H].
  subst p. discriminate H.
Qed.

Lemma route_subtree (method p : string) :
  strings.HasPrefix p "/users/" = true ->
  http.cleanPath p = p \/ method = http.MethodConnect ->
  http.route method p = http.ToUsersSubtree.
Proof.
  intros H Hc. unfold http.route.
  case_bool_decide as E1; [now apply match_subtree|].
  case_bool_decide as E2; [now apply match_subtree|].
  destruct Hc; contradiction.
Qed.

(** X17.  Any other method on a matched path returns 405, and nothing is
    asked of the database: on /users every method but GET and POST, and on a
    canonical path under /users/ every method but GET, PUT and DELETE, so that
    POST /users/{id} creates nothing.  The request target is not "*", which
    the ServeMux answers itself. *)
Theorem router_method_not_allowed (now : time.Time) (s : mongo.Server) (r : api.Request) :
  api.RequestURI r <> "*" ->
  (api.Path r = "/users" ->
   api.Method r <> "GET" -> api.Method r <> "POST" ->
   api.NewRouter now s r
   = (api.Answer (api.http_Error "method not allowed" 405), s))
  /\ (strings.HasPrefix (api.Path r) "/users/" = true ->
      http.cleanPath (api.Path r) = api.Path r ->
      api.Method r <> "GET" -> api.Method r <> "PUT" -> api.Method r <> "DELETE" ->
      api.NewRouter now s r
      = (api.Answer (api.http_Error "method not allowed" 405), s)).
Proof.
  intros Hu. unfold api.NewRouter. rewrite bool_decide_eq_false_2 by exact Hu.
  split.
  - intros Hp Hg Hpo. rewrite Hp, route_users.
    unfold api.handleUsers.
    rewrite (bool_decide_eq_false_2 (api.Method r = http.MethodGet)) by exact Hg.
    rewrite (bool_decide_eq_false_2 (api.Method r = http.MethodPost)) by exact Hpo.
    reflexivity.
  - intros Hp Hc Hg Hpu Hd.
    rewrite (route_subtree _ _ Hp (or_introl Hc)). unfold api.handleUsersID.
    rewrite (bool_decide_eq_false_2 (api.Method r = http.MethodGet)) by exact Hg.
    rewrite (bool_decide_eq_false_2 (api.Method r = http.MethodPut)) by exact Hpu.
    rewrite (bool_decide_eq_false_2 (api.Method r = http.MethodDelete)) by exact Hd.
    reflexivity.
Qed.

Lemma router_method_not_allowed_witness :
  api.NewRouter spec.now0 spec.srv_ann
    (api.mkRequest "POST" spec.ann_path spec.ann_path
       (Ok (api.decodePayload spec.ann_payload)) (Err "unused"))
  = (api.Answer (api.http_Error "method not allowed" 405), spec.srv_ann).
Proof.
  refine (proj2 (router_method_not_allowed spec.now0 spec.srv_ann
                   (api.mkRequest "POST" spec.ann_path spec.ann_path
                      (Ok (api.decodePayload spec.ann_payload)) (Err "unused")) _)
            _ _ _ _ _);
    (reflexivity || discriminate).
Defined.

(** X18.  A request, of a target other than "*", that matches neither
    route, or whose path is not canonical (a doubled slash, a . or ..
    element), never reaches a handler: the router answers 404, or redirects to
    the canonical path, and nothing is asked of the database.
    DELETE /users//{id} deletes nothing. *)
Theorem router_unrouted (now : time.Time) (s : mongo.Server) (r : api.Request) :
  api.RequestURI r <> "*" ->
  (api.Path r <> "/users" ->
   strings.HasPrefix (api.Path r) "/users/" = false ->
   snd (api.NewRouter now s r) = s
   /\ (fst (api.NewRouter now s r)
       = api.Answer (api.http_Error "404 page not found" 404)
       \/ fst (api.NewRouter now s r)
          = api.MovedPermanently (http.cleanPath (api.Path r))))
  /\ (api.Method r <> "CONNECT" ->
      http.cleanPath (api.Path r) <> api.Path r ->
      api.NewRouter now s r = (api.MovedPermanently (http.cleanPath (api.Path r)), s)).
Proof.
  intros Hu. unfold api.NewRouter. rewrite bool_decide_eq_false_2 by exact Hu.
  split.
  - intros Hne Hpre. unfold http.route.
    assert (Hm : http.match_ (api.Path r) = http.ToNotFound).
    { unfold http.match_. rewrite bool_decide_eq_false_2 by exact Hne.
      now rewrite Hpre. }
    destruct (bool_decide (api.Method r = http.MethodConnect)); [rewrite Hm; auto|].
    destruct (bool_decide (http.cleanPath (api.Path r) = api.Path r));
      [rewrite Hm; auto|auto].
  - intros Hm Hc. unfold http.route.
    rewrite (bool_decide_eq_false_2 (api.Method r = http.MethodConnect)) by exact Hm.
    now rewrite bool_decide_eq_false_2 by exact Hc.
Qed.

Lemma router_unrouted_witness :
  api.NewRouter spec.now0 spec.srv_ann
    (api.mkRequest "DELETE" "/users//65f0a1b2c3d4e5f601234567"
       "/users//65f0a1b2c3d4e5f601234567" (Err "unused") (Err "unused"))
  = (api.MovedPermanently "/users/65f0a1b2c3d4e5f601234567", spec.srv_ann).
Proof.
  refine (proj2 (router_unrouted spec.now0 spec.srv_ann
                   (api.mkRequest "DELETE" "/users//65f0a1b2c3d4e5f601234567"
                      "/users//65f0a1b2c3d4e5f601234567" (Err "unused") (Err "unused")) _)
            _ _); discriminate.
Defined.

Lemma getUser_reads (s : mongo.Server) (path : string) :
  mongo.users (snd (api.getUser s path)) = mongo.users s
  /\ mongo.oid_counter (snd (api.getUser s path)) = mongo.oid_counter s.
Proof.
  unfold api.getUser.
  destruct (primitive.ObjectIDFromHex (strings.TrimPrefix path "/users/")) as [oid|];
    [|simpl; auto].
  unfold mongo.FindOne. simpl.
  destruct (mongo.reachable s); simpl; [|auto].
  destruct (find (mongo.has_id oid) (mongo.users s)); simpl; auto.
Qed.

Lemma listUsers_reads (s : mongo.Server) :
  mongo.users (snd (api.listUsers s)) = mongo.users s
  /\ mongo.oid_counter (snd (api.listUsers s)) = mongo.oid_counter s.
Proof.
  unfold api.listUsers, mongo.Find. simpl. destruct (mongo.reachable s); simpl; auto.
Qed.

(** X19.  GET is safe: whatever its path and its body, a GET request leaves
    the documents of the collection and the identifier generator as they
    were. *)
Theorem router_GET_changes_nothing (now : time.Time) (s : mongo.Server) (r : api.Request) :
  api.Method r = "GET" ->
  mongo.users (snd (api.NewRouter now s r)) = mongo.users s
  /\ mongo.oid_counter (snd (api.NewRouter now s r)) = mongo.oid_counter s.
Proof.
  intros Hm. unfold api.NewRouter.
  destruct (bool_decide (api.RequestURI r = "*")); [simpl; auto|].
  destruct (http.route (api.Method r) (api.Path r)); try (simpl; auto).
  - unfold api.handleUsers. rewrite Hm. simpl.
    destruct (api.listUsers s) as [resp s'] eqn:E.
    pose proof (listUsers_reads s) as H. rewrite E in H. exact H.
  - unfold api.handleUsersID. rewrite Hm. simpl.
    destruct (api.getUser s (api.Path r)) as [resp s'] eqn:E.
    pose proof (getUser_reads s (api.Path r)) as H. rewrite E in H. exact H.
Qed.

Lemma router_GET_changes_nothing_witness :
  mongo.users
    (snd (api.NewRouter spec.now0 spec.srv_ann
            (api.mkRequest "GET" "/users" "/users" (Err "unused") (Err "unused"))))
  = [spec.ann_doc].
Proof.
  exact (proj1 (router_GET_changes_nothing spec.now0 spec.srv_ann
                  (api.mkRequest "GET" "/users" "/users" (Err "unused") (Err "unused"))
                  eq_refl)).
Defined.

(** X20.  Through the router, GET, PUT and DELETE on a canonical path
    /users/{id} whose id is not 24 hexadecimal digits, the empty id of /users/
    included, are answered 400 "invalid id", whatever the body, and nothing is
    asked of the database.  The request target is not "*". *)
Theorem router_invalid_id (now : time.Time) (s : mongo.Server) (r : api.Request) :
  api.RequestURI r <> "*" ->
  strings.HasPrefix (api.Path r) "/users/" = true ->
  http.cleanPath (api.Path r) = api.Path r ->
  spec.is_hex_id (strings.TrimPrefix (api.Path r) "/users/") = false ->
  api.Method r = "GET" \/ api.Method r = "PUT" \/ api.Method r = "DELETE" ->
  api.NewRouter now s r = (api.Answer (api.http_Error "invalid id" 400), s).
Proof.
  intros Hu Hp Hc Hid Hm. apply ObjectIDFromHex_None in Hid.
  unfold api.NewRouter. rewrite bool_decide_eq_false_2 by exact Hu.
  rewrite (route_subtree _ _ Hp (or_introl Hc)).
  unfold api.handleUsersID, api.getUser, api.updateUser, api.deleteUser.
  rewrite Hid. destruct Hm as [->|[->| ->]]; reflexivity.
Qed.

Lemma router_invalid_id_witness :
  api.NewRouter spec.now0 spec.srv_ann
    (api.mkRequest "PUT" "/users/" "/users/" (Err "unused") (Ok (Some ∅)))
  = (api.Answer (api.http_Error "invalid id" 400), spec.srv_ann).
Proof.
  apply (router_invalid_id spec.now0 spec.srv_ann
           (api.mkRequest "PUT" "/users/" "/users/" (Err "unused") (Ok (Some ∅))));
    try reflexivity; [discriminate|].
  right. left. reflexivity.
Defined.

End Router.

(* ===================================================================== *)
(** ** Handlers: the letter case of an id *)
(* ===================================================================== *)

Section IdCase.

Lemma fromHexChar_lower (c : ascii) :
  hex.fromHexChar (inv.lower_hex c) = hex.fromHexChar c.
Proof. destruct c as [[] [] [] [] [] [] [] []]; reflexivity. Qed.

Lemma hextable_fromHexChar (c : ascii) (d : Z) :
  hex.fromHexChar c = Some d -> hex.hextable d = inv.lower_hex c /\ 0 <= d < 16.
Proof.
  destruct c as [[] [] [] [] [] [] [] []]; intros H; vm_compute in H;
    try discriminate H; injection H as <-; (split; [reflexivity|lia]).
Qed.

Lemma length_lower (s : string) : String.length (inv.lower s) = String.length s.
Proof. induction s as [|c s IH]; simpl; congruence. Qed.

Lemma Decode_lower (s : string) : hex.Decode (inv.lower s) = hex.Decode s.
Proof.
  revert s. fix IH 1. intros [|a [|b rest]]; [reflexivity|reflexivity|].
  change (inv.lower (String a (String b rest)))
    with (String (inv.lower_hex a) (String (inv.lower_hex b) (inv.lower rest))).
  change (hex.Decode (String (inv.lower_hex a) (String (inv.lower_hex b) (inv.lower rest))))
    with (match hex.fromHexChar (inv.lower_hex a), hex.fromHexChar (inv.lower_hex b),
                hex.Decode (inv.lower rest) with
          | Some hi, Some lo, Some bytes => Some (Z.lor (Z.shiftl hi 4) lo :: bytes)
          | _, _, _ => None
          end).
  now rewrite !fromHexChar_lower, IH.
Qed.

Lemma ObjectIDFromHex_lower (s : string) :
  primitive.ObjectIDFromHex (inv.lower s) = primitive.ObjectIDFromHex s.
Proof. unfold primitive.ObjectIDFromHex. now rewrite length_lower, Decode_lower. Qed.

Lemma nibbles_join_all : spec.range_all inv.nibbles_join 0 16 = true.
Proof. vm_compute. reflexivity. Qed.

Lemma nibbles (hi lo : Z) :
  0 <= hi < 16 -> 0 <= lo < 16 ->
  Z.shiftr (Z.lor (Z.shiftl hi 4) lo) 4 = hi
  /\ Z.land (Z.lor (Z.shiftl hi 4) lo) 15 = lo.
Proof.
  intros Hhi Hlo.
  assert (H : inv.nibbles_join hi = true)
    by (apply (range_all_spec _ _ _ nibbles_join_all); lia).
  unfold inv.nibbles_join in H.
  assert (H' := range_all_spec _ _ _ H lo ltac:(lia)). simpl in H'.
  apply andb_prop in H'. destruct H' as [H1 H2]. lia.
Qed.

Lemma EncodeToString_Decode (s : string) (bs : list Z) :
  hex.Decode s = Some bs -> hex.EncodeToString bs = inv.lower s.
Proof.
  revert s bs. fix IH 1. intros [|a [|b rest]] bs.
  - intros [= <-]. reflexivity.
  - discriminate.
  - change (hex.Decode (String a (String b rest)))
      with (match hex.fromHexChar a, hex.fromHexChar b, hex.Decode rest with
            | Some hi, Some lo, Some bytes => Some (Z.lor (Z.shiftl hi 4) lo :: bytes)
            | _, _, _ => None
            end).
    destruct (hex.fromHexChar a) as [hi|] eqn:Ha; [|discriminate].
    destruct (hex.fromHexChar b) as [lo|] eqn:Hb; [|discriminate].
    destruct (hex.Decode rest) as [bytes|] eqn:Hr; [|discriminate].
    intros [= <-].
    destruct (hextable_fromHexChar _ _ Ha) as [Ea Hhi].
    destruct (hextable_fromHexChar _ _ Hb) as [Eb Hlo].
    destruct (nibbles hi lo Hhi Hlo) as [E1 E2].
    change (hex.EncodeToString (Z.lor (Z.shiftl hi 4) lo :: bytes))
      with (String (hex.hextable (Z.shiftr (Z.lor (Z.shiftl hi 4) lo) 4))
              (String (hex.hextable (Z.land (Z.lor (Z.shiftl hi 4) lo) 15))
                 (hex.EncodeToString bytes))).
    rewrite E1, E2, Ea, Eb, (IH rest bytes Hr). reflexivity.
Qed.

(** X23.  The letter case of the hexadecimal digits of an id does not
    matter: get, update and delete do on /users/{id} what they do on the same
    path with the id in lower case, and the id that update and delete put in
    their answer is always the lower-case form of the id of the path. *)
Theorem id_letter_case (s : mongo.Server) (id : string)
  (body : result (option (gmap string go.any))) :
  api.getUser s ("/users/" +:+ inv.lower id) = api.getUser s ("/users/" +:+ id)
  /\ api.updateUser s ("/users/" +:+ inv.lower id) body
     = api.updateUser s ("/users/" +:+ id) body
  /\ api.deleteUser s ("/users/" +:+ inv.lower id) = api.deleteUser s ("/users/" +:+ id)
  /\ forall oid, primitive.ObjectIDFromHex id = Some oid ->
       primitive.Hex oid = inv.lower id.
Proof.
  unfold api.getUser, api.updateUser, api.deleteUser.
  rewrite !TrimPrefix_app, ObjectIDFromHex_lower. repeat split.
  intros oid. unfold primitive.ObjectIDFromHex.
  destruct (negb (String.length id =? 24)%nat); [discriminate|].
  apply EncodeToString_Decode.
Qed.

Lemma id_letter_case_witness :
  primitive.ObjectIDFromHex "65F0A1B2C3D4E5F601234567" = Some spec.ann_id
  /\ primitive.Hex spec.ann_id = "65f0a1b2c3d4e5f601234567"
  /\ api.deleteUser spec.srv_ann "/users/65f0a1b2c3d4e5f601234567"
     = api.deleteUser spec.srv_ann "/users/65F0A1B2C3D4E5F601234567".
Proof.
  assert (H : primitive.ObjectIDFromHex "65F0A1B2C3D4E5F601234567" = Some spec.ann_id)
    by (vm_compute; reflexivity).
  destruct (id_letter_case spec.srv_ann "65F0A1B2C3D4E5F601234567" (Ok None))
    as (_ & _ & Hd & Hh).
  split; [exact H|]. split; [exact (Hh _ H)|exact Hd].
Defined.

End IdCase.
